(** * Shallow embedding of the multi-user screen sharing server

    Sources: [unified_server.py] (classes [ScreenCapture], [User] and
    [ScreenShareServer]) and [screen_capture.py] (the threaded
    [ScreenCapture] variant).  User ids (uuid strings) are [nat]s, wall
    clock readings ([time.time()]) are rationals. *)

From Stdlib Require Import String Ascii.
From Stdlib Require Import List Bool Arith ZArith QArith Lia Lqa.
From Stdlib Require Import Sorted Permutation.
Import ListNotations.
Open Scope nat_scope.
Open Scope list_scope.

(* ------------------------------------------------------------------ *)
(** ** [ScreenCapture] of [unified_server.py]: the settings fields *)

Module Capture.

(** The fields of [ScreenCapture] that the settings and start/stop paths
    touch.  [monitors_len] is [len(self.monitors)]. *)
Record Capture := mkCapture {
  running : bool;
  target_fps : Z;
  target_resolution : list Z;
  quality : Z;
  selected_monitor : Z;
  monitors_len : Z
}.

(** [start_capture]: a no-op if already running. *)
Definition start_capture (c : Capture) : Capture :=
  if running c then c
  else mkCapture true (target_fps c) (target_resolution c) (quality c)
         (selected_monitor c) (monitors_len c).

(** [stop_capture]: clears [running] and cancels the task. *)
Definition stop_capture (c : Capture) : Capture :=
  mkCapture false (target_fps c) (target_resolution c) (quality c)
    (selected_monitor c) (monitors_len c).

(** [select_monitor]: returns the new capture and the boolean result. *)
Definition select_monitor (c : Capture) (monitor_id : Z) : Capture * bool :=
  if ((0 <=? monitor_id) && (monitor_id <? monitors_len c))%Z then
    (mkCapture (running c) (target_fps c) (target_resolution c) (quality c)
       monitor_id (monitors_len c), true)
  else (c, false).

(** Python truthiness of an optional JSON number and an optional list:
    [None], [0] and [[]] are falsy. *)
Definition truthy_Z (o : option Z) : bool :=
  match o with Some z => negb (z =? 0)%Z | None => false end.

Definition truthy_list (o : option (list Z)) : bool :=
  match o with Some (_ :: _) => true | _ => false end.

Fixpoint list_Z_eqb (a b : list Z) : bool :=
  match a, b with
  | [], [] => true
  | x :: a', y :: b' => Z.eqb x y && list_Z_eqb a' b'
  | _, _ => false
  end.

(** [update_settings(fps, resolution, quality, monitor)]. *)
Definition update_settings (c : Capture) (fps : option Z)
    (resolution : option (list Z)) (q : option Z) (monitor : option Z)
    : Capture :=
  let c1 :=
    match fps with
    | Some f => if truthy_Z fps && negb (f =? target_fps c)%Z then
                  mkCapture (running c) f (target_resolution c) (quality c)
                    (selected_monitor c) (monitors_len c)
                else c
    | None => c
    end in
  let c2 :=
    match resolution with
    | Some r => if truthy_list resolution && negb (list_Z_eqb r (target_resolution c1)) then
                  mkCapture (running c1) (target_fps c1) r (quality c1)
                    (selected_monitor c1) (monitors_len c1)
                else c1
    | None => c1
    end in
  let c3 :=
    match q with
    | Some v => if truthy_Z q && negb (v =? quality c2)%Z then
                  mkCapture (running c2) (target_fps c2) (target_resolution c2) v
                    (selected_monitor c2) (monitors_len c2)
                else c2
    | None => c2
    end in
  match monitor with
  | Some m => fst (select_monitor c3 m)
  | None => c3
  end.

End Capture.

(* ------------------------------------------------------------------ *)
(** ** [ScreenShareServer]: users, presenter and messages *)

Module Server.
Import Capture.

(** [User]: id, [connected_at] and the [is_presenter] flag. *)
Record User := mkUser {
  uid : nat;
  connected_at : Q;
  is_presenter : bool
}.

(** The JSON fields of a [settings_update] message. *)
Record SettingsArg := mkSettingsArg {
  s_fps : option Z;
  s_resolution : option (list Z);
  s_quality : option Z;
  s_monitor : option Z
}.

(** The messages the server sends, by their ['type'] tag.  A user is
    named by its id. *)
Inductive Event :=
| Welcome (u : nat) (is_p : bool)
| UserJoined (u : nat) (total : nat)
| UserLeft (u : nat) (total : nat) (new_presenter : option nat)
| PresenterChanged (new_presenter : nat)
| PresentationStarted (presenter : nat)
| PresentationStopped (presenter : nat)
| ChatMessage (u : nat) (message : string) (timestamp : Q)
| SettingsUpdated (settings : SettingsArg)
| Error (message : string).

(** Incoming WebSocket messages, by their ['type'] tag. *)
Inductive Command :=
| StartPresenting
| StopPresenting
| RequestPresenter
| Chat (message : string)
| SettingsUpdate (settings : SettingsArg)
| Unknown (type_tag : string).

(** Server state.  [users] is the dict [self.users] in insertion order;
    [outbox] lists the messages delivered (recipient, message); [errlog]
    the ids whose send raised and was logged. *)
Record State := mkState {
  users : list User;
  presenter_id : option nat;
  capture : Capture;
  outbox : list (nat * Event);
  errlog : list nat
}.

(** Python dict operations on [self.users]. *)
Definition dict_get (us : list User) (k : nat) : option User :=
  find (fun u => Nat.eqb (uid u) k) us.

Definition dict_mem (us : list User) (k : nat) : bool :=
  match dict_get us k with Some _ => true | None => false end.

(** [d[k] = v]: replaces in place when the key exists, appends otherwise. *)
Definition dict_set (us : list User) (v : User) : list User :=
  if dict_mem us (uid v)
  then map (fun u => if Nat.eqb (uid u) (uid v) then v else u) us
  else us ++ [v].

Definition dict_del (us : list User) (k : nat) : list User :=
  filter (fun u => negb (Nat.eqb (uid u) k)) us.

(** [self.users[k].is_presenter = b]. *)
Definition set_flag (us : list User) (k : nat) (b : bool) : list User :=
  map (fun u => if Nat.eqb (uid u) k then mkUser (uid u) (connected_at u) b else u) us.

Definition opt_eqb (a b : option nat) : bool :=
  match a, b with
  | Some x, Some y => Nat.eqb x y
  | None, None => true
  | _, _ => false
  end.

Section Handlers.

(** Which connections raise on [send_str]. *)
Variable send_fails : nat -> bool.

Definition with_users (s : State) (us : list User) : State :=
  mkState us (presenter_id s) (capture s) (outbox s) (errlog s).

Definition with_presenter (s : State) (p : option nat) : State :=
  mkState (users s) p (capture s) (outbox s) (errlog s).

Definition with_capture (s : State) (c : Capture) : State :=
  mkState (users s) (presenter_id s) c (outbox s) (errlog s).

(** One [try: await ws.send_str(..) except: logger.error(..)]. *)
Definition send_one (s : State) (k : nat) (e : Event) : State :=
  if send_fails k
  then mkState (users s) (presenter_id s) (capture s) (outbox s) (errlog s ++ [k])
  else mkState (users s) (presenter_id s) (capture s) (outbox s ++ [(k, e)]) (errlog s).

(** Sends to every id of [ks] in order. *)
Definition send_all (s : State) (ks : list nat) (e : Event) : State :=
  fold_left (fun st k => send_one st k e) ks s.

(** [_send_to_user]. *)
Definition send_to_user (s : State) (k : nat) (e : Event) : State :=
  if dict_mem (users s) k then send_one s k e else s.

(** [_broadcast]: iterates over [list(self.users.keys())]. *)
Definition broadcast (s : State) (e : Event) : State :=
  send_all s (map uid (users s)) e.

(** [_broadcast_except]. *)
Definition broadcast_except (s : State) (k : nat) (e : Event) : State :=
  send_all s (filter (fun x => negb (Nat.eqb x k)) (map uid (users s))) e.

(** [websocket_handler] up to the receive loop: the new user is stored,
    becomes presenter when there is none, gets [welcome], the others get
    [user_joined]. *)
Definition join (s : State) (k : nat) (now : Q) : State :=
  let s1 := with_users s (dict_set (users s) (mkUser k now false)) in
  let s2 := match presenter_id s1 with
            | None => mkState (set_flag (users s1) k true) (Some k)
                        (capture s1) (outbox s1) (errlog s1)
            | Some _ => s1
            end in
  let is_p := opt_eqb (presenter_id s2) (Some k) in
  let s3 := send_to_user s2 k (Welcome k is_p) in
  broadcast_except s3 k (UserJoined k (List.length (users s3))).

(** [_request_presenter]. *)
Definition request_presenter (s : State) (k : nat) : State :=
  if negb (dict_mem (users s) k) then s else
  let us1 := match presenter_id s with
             | Some p => match dict_get (users s) p with
                         | Some _ => set_flag (users s) p false
                         | None => users s
                         end
             | None => users s
             end in
  let s1 := mkState (set_flag us1 k true) (Some k) (capture s) (outbox s) (errlog s) in
  broadcast s1 (PresenterChanged k).

(** [_user_disconnected]. *)
Definition user_disconnected (s : State) (k : nat) : State :=
  if negb (dict_mem (users s) k) then s else
  let s1 := with_users s (dict_del (users s) k) in
  let s2 :=
    if opt_eqb (Some k) (presenter_id s1) then
      let s' := with_presenter (with_capture s1 (stop_capture (capture s1))) None in
      match users s' with
      | [] => s'
      | u :: _ => mkState (set_flag (users s') (uid u) true) (Some (uid u))
                    (capture s') (outbox s') (errlog s')
      end
    else s1 in
  broadcast s2 (UserLeft k (List.length (users s2)) (presenter_id s2)).

(** The registry operations of C1: connection handshake, disconnect and
    [request_presenter]. *)
Inductive RegOp :=
| OpJoin (k : nat) (now : Q)
| OpLeave (k : nat)
| OpRequest (k : nat).

Definition reg_step (s : State) (op : RegOp) : State :=
  match op with
  | OpJoin k now => join s k now
  | OpLeave k => user_disconnected s k
  | OpRequest k => request_presenter s k
  end.

Definition run_ops (s : State) (ops : list RegOp) : State :=
  fold_left reg_step ops s.

End Handlers.

(** The server right after [__init__]: no users, no presenter. *)
Definition init_state (c : Capture) : State := mkState [] None c [] [].

(** The users whose [is_presenter] flag is set. *)
Definition presenters (us : list User) : list User := filter is_presenter us.

(** [str.strip()] with no argument removes the characters for which
    [str.isspace()] holds.  Strings are modelled as sequences of code
    points below 256 (one [ascii] each); among those, [isspace] holds for
    [\t \n \v \f \r] (9-13), the separators [\x1c]-[\x1f] (28-31), the
    space (32), NEL [\x85] (133) and NO-BREAK SPACE [\xa0] (160). *)
Definition is_space (c : ascii) : bool :=
  match nat_of_ascii c with
  | 9 | 10 | 11 | 12 | 13 | 28 | 29 | 30 | 31 | 32 | 133 | 160 => true
  | _ => false
  end.

Fixpoint lstrip_list (l : list ascii) : list ascii :=
  match l with
  | c :: l' => if is_space c then lstrip_list l' else l
  | [] => []
  end.

Definition strip (m : string) : string :=
  string_of_list_ascii
    (rev (lstrip_list (rev (lstrip_list (list_ascii_of_string m))))).

Definition is_empty_string (m : string) : bool :=
  match m with EmptyString => true | _ => false end.

Section Dispatch.

Variable send_fails : nat -> bool.

Definition only_presenter_msg : string := "Only the presenter can share screen".

(** [_start_presenting]. *)
Definition start_presenting (s : State) (k : nat) : State :=
  if negb (dict_mem (users s) k) then s
  else if negb (opt_eqb (presenter_id s) (Some k)) then
    send_to_user send_fails s k (Error only_presenter_msg)
  else broadcast send_fails (with_capture s (start_capture (capture s)))
         (PresentationStarted k).

(** [_stop_presenting]. *)
Definition stop_presenting (s : State) (k : nat) : State :=
  if opt_eqb (Some k) (presenter_id s) then
    broadcast send_fails (with_capture s (stop_capture (capture s)))
      (PresentationStopped k)
  else s.

(** [_handle_chat]: nothing is stored, the stripped text is broadcast. *)
Definition handle_chat (s : State) (k : nat) (message : string) (now : Q) : State :=
  if negb (dict_mem (users s) k) || is_empty_string (strip message) then s
  else broadcast send_fails s (ChatMessage k (strip message) now).

(** [_handle_settings_update]. *)
Definition handle_settings_update (s : State) (k : nat) (st : SettingsArg) : State :=
  if negb (opt_eqb (Some k) (presenter_id s)) then s
  else
    let s1 := with_capture s (update_settings (capture s) (s_fps st)
                 (s_resolution st) (s_quality st) (s_monitor st)) in
    broadcast send_fails s1 (SettingsUpdated st).

(** [_handle_message]: dispatch on the ['type'] tag. *)
Definition handle_message (s : State) (k : nat) (cmd : Command) (now : Q) : State :=
  match cmd with
  | StartPresenting => start_presenting s k
  | StopPresenting => stop_presenting s k
  | RequestPresenter => request_presenter send_fails s k
  | Chat m => handle_chat s k m now
  | SettingsUpdate st => handle_settings_update s k st
  | Unknown _ => s
  end.

End Dispatch.

(** Handlers interleaved at the await of [_user_disconnected].  Each
    handler runs alone between two awaits.  In [websocket_handler],
    [_request_presenter], [_start_presenting] and [_stop_presenting]
    every registry update comes before the first await, so they are run
    whole here.  [_user_disconnected] updates the registry on both sides
    of [await self.screen_capture.stop_capture()], which suspends while
    the capture task is still pending (for instance while the capture
    runs); other handlers run until it resumes. *)
Section Interleaving.

Variable send_fails : nat -> bool.









End Interleaving.

(** The browser client's chat panel ([addChatMessage] in the page
    script): a line per received [chat_message] and a system line for
    [user_joined], [user_left], [presenter_changed],
    [presentation_started] and [presentation_stopped].  Lines are only
    appended. *)
Inductive ChatLine :=
| UserLine (u : nat) (message : string)
| SystemLine (ev : Event).

Definition client_apply (panel : list ChatLine) (ev : Event) : list ChatLine :=
  match ev with
  | ChatMessage u m _ => panel ++ [UserLine u m]
  | UserJoined _ _ | UserLeft _ _ _ | PresenterChanged _
  | PresentationStarted _ | PresentationStopped _ => panel ++ [SystemLine ev]
  | _ => panel
  end.

Definition client_recv (r : nat) (panel : list ChatLine) (m : nat * Event) : list ChatLine :=
  if Nat.eqb (fst m) r then client_apply panel (snd m) else panel.

(** The chat panel of the client of user [r] after it received the
    messages of [out] addressed to it. *)
Definition client_panel (r : nat) (out : list (nat * Event)) : list ChatLine :=
  fold_left (client_recv r) out [].

End Server.

(* ------------------------------------------------------------------ *)
(** ** [ScreenCapture._capture_loop] of [unified_server.py] *)

Module UnifiedLoop.
Local Open Scope Q_scope.

(** A frame held in [self.current_frame]: an encoded screenshot, the
    test pattern of [_generate_test_frame] (which prints [frame_count]),
    or its fallback text when PIL cannot be imported. *)
Inductive Frame :=
| Encoded (shot : nat)
| TestFrame (count : nat)
| PilMissingFrame.

(** What one pass of the [try] block meets before any call to
    [_generate_test_frame]: an encoded screenshot, the test-pattern
    branch (no [mss], or the PIL fallback's [ImportError]), or an
    exception of the capture path (e.g. [cv2.resize] rejecting the
    target resolution). *)
Inductive Outcome :=
| Captured (shot : nat)
| NoCapturer
| CaptureFailed.

(** The loop's fields of [ScreenCapture].  [u_resolution] is
    [self.target_resolution] as [update_settings] stores it;
    [pil_available] says whether [from PIL import ...] succeeds;
    [task_done] records that the capture task has ended with an
    exception. *)
Record UState := mkU {
  u_running : bool;
  current_frame : option Frame;
  frame_count : nat;
  start_time : Q;
  last_fps_time : Q;
  actual_fps : Q;
  u_resolution : list Z;
  pil_available : bool;
  task_done : bool
}.

Definition with_frame (st : UState) (fr : Frame) : UState :=
  mkU (u_running st) (Some fr) (frame_count st) (start_time st)
    (last_fps_time st) (actual_fps st) (u_resolution st) (pil_available st)
    (task_done st).

(** [_update_fps] at clock reading [current_time]. *)
Definition update_fps (st : UState) (current_time : Q) : UState :=
  if Qle_bool 1 (current_time - last_fps_time st) then
    let fps := if Qlt_le_dec (start_time st) current_time
               then inject_Z (Z.of_nat (frame_count st)) / (current_time - start_time st)
               else 0 in
    mkU (u_running st) (current_frame st) (frame_count st) (start_time st)
      current_time fps (u_resolution st) (pil_available st) (task_done st)
  else st.

(** [self.frame_count += 1; self._update_fps()] after a frame is stored. *)
Definition count_frame (st : UState) (fr : Frame) (current_time : Q) : UState :=
  update_fps (mkU (u_running st) (Some fr) (S (frame_count st)) (start_time st)
                (last_fps_time st) (actual_fps st) (u_resolution st)
                (pil_available st) (task_done st)) current_time.

(** [_generate_test_frame]; [None] is an exception leaving it.  Without
    PIL the [except ImportError] fallback returns a constant.  With PIL,
    [width, height = self.target_resolution] raises [ValueError] unless
    the resolution has exactly two entries, [Image.new] raises on a
    negative size, and saving an image with a zero side as JPEG raises
    ("cannot write empty image"). *)
Definition generate_test_frame (st : UState) : option Frame :=
  if negb (pil_available st) then Some PilMissingFrame
  else match u_resolution st with
       | [width; height] =>
           if ((0 <? width) && (0 <? height))%Z
           then Some (TestFrame (frame_count st))
           else None
       | _ => None
       end.


(** The capture task ends with the exception; [running] is untouched. *)
Definition crash (st : UState) : UState :=
  mkU (u_running st) (current_frame st) (frame_count st) (start_time st)
    (last_fps_time st) (actual_fps st) (u_resolution st) (pil_available st) true.

(** One pass of the loop body.  In the test-pattern branch a failing
    [_generate_test_frame] raises inside the [try]; the [except] branch
    then calls it again on the same fields, it raises again, and nothing
    catches this second exception. *)
Definition tick (st : UState) (o : Outcome) (current_time : Q) : UState :=
  match o with
  | Captured n => count_frame st (Encoded n) current_time
  | NoCapturer =>
      match generate_test_frame st with
      | Some fr => count_frame st fr current_time
      | None => crash st
      end
  | CaptureFailed =>
      match generate_test_frame st with
      | Some fr => with_frame st fr
      | None => crash st
      end
  end.

(** What happens next to the loop: a pass of the body at a clock
    reading, [stop_capture] clearing [running], or [update_settings]
    storing a new [target_resolution]. *)
Inductive LoopEvent :=
| Tick (o : Outcome) (current_time : Q)
| StopReq
| SetResolution (r : list Z).

Definition is_stop (e : LoopEvent) : bool :=
  match e with StopReq => true | _ => false end.

(** [while self.running: ...]: a pass runs while [running] is set and
    the task has not ended. *)
Fixpoint run_loop (st : UState) (evs : list LoopEvent) : UState :=
  match evs with
  | [] => st
  | StopReq :: rest =>
      run_loop (mkU false (current_frame st) (frame_count st) (start_time st)
                  (last_fps_time st) (actual_fps st) (u_resolution st)
                  (pil_available st) (task_done st)) rest
  | SetResolution r :: rest =>
      run_loop (mkU (u_running st) (current_frame st) (frame_count st) (start_time st)
                  (last_fps_time st) (actual_fps st) r
                  (pil_available st) (task_done st)) rest
  | Tick o t :: rest =>
      if u_running st && negb (task_done st) then run_loop (tick st o t) rest
      else run_loop st rest
  end.

(** The frame counting of lines 153-154 over a list of clock readings,
    one per stored frame. *)
Definition count_frames (st : UState) (times : list Q) : UState :=
  fold_left (fun st t => count_frame st (Encoded 0) t) times st.

End UnifiedLoop.

(* ------------------------------------------------------------------ *)
(** ** [ScreenCapture._capture_loop] of [screen_capture.py] *)

Module ThreadedLoop.
Local Open Scope Q_scope.

(** [frame_times] is a ghost field: the clock reading at the start of
    each pass that stored a frame. *)
Record TState := mkT {
  t_running : bool;
  t_frame : option nat;
  t_count : nat;
  t_last_fps_time : Q;
  t_actual_fps : Q;
  next_frame_time : Q;
  clock : Q;
  frame_times : list Q
}.

(** One pass: the grabbed screenshot ([None] when the [try] block
    raises), the time the block takes, the gaps before the second and
    third [time.time()] readings, and how much [time.sleep] overshoots. *)
Record TickIn := mkTickIn {
  ti_shot : option nat;
  ti_work : Q;
  ti_gap1 : Q;
  ti_gap2 : Q;
  ti_oversleep : Q
}.

(** [_update_fps] (which also counts the frame). *)
Definition update_fps (st : TState) (current_time : Q) : TState :=
  let cnt := S (t_count st) in
  if Qle_bool 1 (current_time - t_last_fps_time st) then
    mkT (t_running st) (t_frame st) 0 current_time
      (inject_Z (Z.of_nat cnt) / (current_time - t_last_fps_time st))
      (next_frame_time st) (clock st) (frame_times st)
  else
    mkT (t_running st) (t_frame st) cnt (t_last_fps_time st) (t_actual_fps st)
      (next_frame_time st) (clock st) (frame_times st).

(** One pass of the loop body with [frame_interval] = [interval]. *)
Definition tick (interval : Q) (st : TState) (ti : TickIn) : TState :=
  let w := clock st in
  let t1 := w + ti_work ti in
  match ti_shot ti with
  | None =>
      (* [except: logger.error(..); continue] *)
      mkT (t_running st) (t_frame st) (t_count st) (t_last_fps_time st)
        (t_actual_fps st) (next_frame_time st) t1 (frame_times st)
  | Some fr =>
      let st1 := update_fps
        (mkT (t_running st) (Some fr) (t_count st) (t_last_fps_time st)
           (t_actual_fps st) (next_frame_time st) w (frame_times st ++ [w])) t1 in
      let nft := next_frame_time st + interval in
      let t2 := t1 + ti_gap1 ti in
      if Qlt_le_dec 0 (nft - t2) then
        (* [time.sleep(sleep_time)] *)
        mkT (t_running st1) (t_frame st1) (t_count st1) (t_last_fps_time st1)
          (t_actual_fps st1) nft (nft + ti_oversleep ti) (frame_times st1)
      else
        (* behind schedule: [next_frame_time = time.time()] *)
        let t3 := t2 + ti_gap2 ti in
        mkT (t_running st1) (t_frame st1) (t_count st1) (t_last_fps_time st1)
          (t_actual_fps st1) t3 t3 (frame_times st1)
  end.

Inductive TEvent :=
| TTick (ti : TickIn)
| TStop.

Fixpoint run_loop (interval : Q) (st : TState) (evs : list TEvent) : TState :=
  match evs with
  | [] => st
  | TStop :: rest =>
      run_loop interval
        (mkT false (t_frame st) (t_count st) (t_last_fps_time st) (t_actual_fps st)
           (next_frame_time st) (clock st) (frame_times st)) rest
  | TTick ti :: rest =>
      if t_running st then run_loop interval (tick interval st ti) rest
      else run_loop interval st rest
  end.

(** The loop as [start_capture] starts it at clock [t0]:
    [next_frame_time = time.time()]. *)
Definition start_state (t0 : Q) (last : Q) : TState :=
  mkT true None 0 last 0 t0 t0 [].

(** The durations of a pass are non-negative. *)
Definition tick_ok (ti : TickIn) : Prop :=
  0 <= ti_work ti /\ 0 <= ti_gap1 ti /\ 0 <= ti_gap2 ti /\ 0 <= ti_oversleep ti.

Definition event_ok (e : TEvent) : Prop :=
  match e with TTick ti => tick_ok ti | TStop => True end.

Definition is_stop (e : TEvent) : bool :=
  match e with TStop => true | TTick _ => false end.

(** [_update_fps] over a list of clock readings, one per stored frame. *)
Definition count_frames (st : TState) (times : list Q) : TState :=
  fold_left update_fps times st.

End ThreadedLoop.

(* ------------------------------------------------------------------ *)
(** ** The frame queue of [screen_capture.py] *)

Module FrameQueue.

(** [queue.Queue(maxsize=5)]. *)
Definition maxsize : nat := 5.

(** [put_nowait]: [None] is [queue.Full]. *)
Definition put_nowait {A} (q : list A) (x : A) : option (list A) :=
  if Nat.ltb (length q) maxsize then Some (q ++ [x]) else None.

(** [get_nowait]: [None] is [queue.Empty]. *)
Definition get_nowait {A} (q : list A) : option (A * list A) :=
  match q with [] => None | x :: r => Some (x, r) end.

(** The queue step of [_capture_loop]: put the frame; when full, drop the
    oldest and put again. *)
Definition offer {A} (q : list A) (x : A) : list A :=
  match put_nowait q x with
  | Some q' => q'
  | None =>
      match get_nowait q with
      | None => q
      | Some (_, r) => match put_nowait r x with Some q'' => q'' | None => r end
      end
  end.

(** [get_frame_from_queue]. *)
Definition get_frame_from_queue {A} (q : list A) : option A * list A :=
  match get_nowait q with None => (None, q) | Some (x, r) => (Some x, r) end.

End FrameQueue.

(* ------------------------------------------------------------------ *)
(** ** [ScreenCaptureSimple] of [simple_server.py] *)

Module SimpleCapture.

(** [quality = min(95, max(50, int(self.bitrate / 100)))]; [int] truncates
    toward zero. *)
Definition jpeg_quality (bitrate : Z) : Z := Z.min 95 (Z.max 50 (Z.quot bitrate 100)).

End SimpleCapture.

(* ------------------------------------------------------------------ *)
(** ** [WebRTCServer] and [ScreenStreamTrack] of [webrtc_server.py] *)

Module WebRTC.

(** [broadcast_message] over [self.websockets] (sockets are [nat]s, the
    copy is iterated in the order of the list): returns the remaining
    set, the sockets that got the message and those whose error was
    logged. *)
Definition broadcast_message (fails : nat -> bool) (wss : list nat)
    : list nat * list nat * list nat :=
  match wss with
  | [] => ([], [], [])
  | _ =>
    fold_left (fun acc ws =>
        let '(set, sent, log) := acc in
        if fails ws then (filter (fun x => negb (Nat.eqb x ws)) set, sent, log ++ [ws])
        else (set, sent ++ [ws], log))
      wss (wss, [], [])
  end.

(** A frame handed to [av.VideoFrame.from_ndarray]: the latest capture,
    or the black 720x1280 frame. *)
Inductive TrackFrame :=
| Latest (shot : nat)
| Black.

(** [recv] with [self.pts] = [pts]: the frame, its [pts], the next [pts]. *)
Definition recv (latest : option nat) (pts : Z) : TrackFrame * Z * Z :=
  let frame := match latest with Some f => Latest f | None => Black end in
  (frame, pts, (pts + 16666)%Z).

(** Successive [recv] calls, each with the latest frame of that time. *)
Fixpoint recv_all (latests : list (option nat)) (pts : Z) : list (TrackFrame * Z) :=
  match latests with
  | [] => []
  | l :: rest =>
      let '(fr, p, pts') := recv l pts in (fr, p) :: recv_all rest pts'
  end.

End WebRTC.

(* ------------------------------------------------------------------ *)
(** ** Concrete runs used by the examples *)

Module Scenarios.
Import Capture Server.

Definition cap0 : Capture := mkCapture false 60 [1280; 720]%Z 85 0 2.

(** No send raises. *)
Definition no_fail (_ : nat) : bool := false.

(** Only the connection of user 1 raises. *)
Definition fail_1 (k : nat) : bool := Nat.eqb k 1.

(** A joins at 1.0, B at 2.0, C at 3.0 (ids 0, 1, 2). *)
Definition s_abc : State :=
  run_ops no_fail (init_state cap0) [OpJoin 0 1; OpJoin 1 2; OpJoin 2 3].

(** A alone in the room. *)
Definition s_a : State := run_ops no_fail (init_state cap0) [OpJoin 0 1].



(** [n] chat messages "hi" sent by user [k]. *)
Definition chats (s : State) (k : nat) (n : nat) : State :=
  fold_left (fun st i => handle_message no_fail st k (Chat "hi")
                           (inject_Z (Z.of_nat i))) (seq 0 n) s.

(** Frames at 20 per second during the first 9 seconds, then at 10 per
    second during the tenth. *)
Definition fps_trace : list Q :=
  map (fun k => (inject_Z (Z.of_nat k) / 20)%Q) (seq 1 180) ++
  map (fun k => (9 + inject_Z (Z.of_nat k) / 10)%Q) (seq 1 10).

(** The unified capture started at time 0. *)
Definition u0 : UnifiedLoop.UState :=
  UnifiedLoop.mkU true None 0 0 0 0 [1280; 720]%Z true false.

End Scenarios.

(* ------------------------------------------------------------------ *)
(** ** Lemmas on the dict helpers and the fan-out *)

Module ServerFacts.
Import Capture Server.

Lemma send_all_fields (f : nat -> bool) (ks : list nat) (e : Event) (s : State) :
  users (send_all f s ks e) = users s /\
  presenter_id (send_all f s ks e) = presenter_id s /\
  capture (send_all f s ks e) = capture s.
Proof.
  unfold send_all. revert s.
  induction ks as [|k ks IH]; intro s; simpl; [auto|].
  destruct (IH (send_one f s k e)) as (H1 & H2 & H3).
  rewrite H1, H2, H3. unfold send_one. destruct (f k); simpl; auto.
Qed.

Lemma broadcast_fields (f : nat -> bool) (s : State) (e : Event) :
  users (broadcast f s e) = users s /\
  presenter_id (broadcast f s e) = presenter_id s /\
  capture (broadcast f s e) = capture s.
Proof. apply send_all_fields. Qed.

Lemma broadcast_except_fields (f : nat -> bool) (s : State) (k : nat) (e : Event) :
  users (broadcast_except f s k e) = users s /\
  presenter_id (broadcast_except f s k e) = presenter_id s /\
  capture (broadcast_except f s k e) = capture s.
Proof. apply send_all_fields. Qed.

Lemma send_to_user_fields (f : nat -> bool) (s : State) (k : nat) (e : Event) :
  users (send_to_user f s k e) = users s /\
  presenter_id (send_to_user f s k e) = presenter_id s /\
  capture (send_to_user f s k e) = capture s.
Proof.
  unfold send_to_user, send_one.
  destruct (dict_mem (users s) k); [destruct (f k)|]; simpl; auto.
Qed.

Lemma dict_get_none (us : list User) (k : nat) :
  dict_get us k = None -> forall u, In u us -> uid u <> k.
Proof.
  intros H u Hin Heq. unfold dict_get in H.
  pose proof (find_none _ _ H u Hin) as Hf. simpl in Hf.
  rewrite Heq, Nat.eqb_refl in Hf. discriminate.
Qed.

Lemma dict_get_some (us : list User) (k : nat) (u : User) :
  dict_get us k = Some u -> In u us /\ uid u = k.
Proof.
  intro H. unfold dict_get in H.
  destruct (find_some _ _ H) as [Hin Hk]. apply Nat.eqb_eq in Hk. auto.
Qed.

Lemma dict_get_in (us : list User) (u : User) :
  In u us -> exists v, dict_get us (uid u) = Some v.
Proof.
  intro Hin. unfold dict_get.
  destruct (find (fun v => Nat.eqb (uid v) (uid u)) us) eqn:E; [eauto|].
  exfalso. exact (dict_get_none us (uid u) E u Hin eq_refl).
Qed.

Lemma map_uid_set_flag (us : list User) (k : nat) (b : bool) :
  map uid (set_flag us k b) = map uid us.
Proof.
  induction us as [|u us IH]; simpl; [reflexivity|].
  rewrite IH. destruct (Nat.eqb (uid u) k); reflexivity.
Qed.

Lemma in_set_flag (us : list User) (k : nat) (b : bool) (x : User) :
  In x (set_flag us k b) ->
  exists y, In y us /\
    ((uid y = k /\ x = mkUser (uid y) (connected_at y) b) \/ (uid y <> k /\ x = y)).
Proof.
  unfold set_flag. rewrite in_map_iff. intros (y & Hx & Hy).
  exists y. split; [exact Hy|].
  destruct (Nat.eqb (uid y) k) eqn:E.
  - left. apply Nat.eqb_eq in E. auto.
  - right. apply Nat.eqb_neq in E. auto.
Qed.

Lemma in_dict_del (us : list User) (k : nat) (x : User) :
  In x (dict_del us k) -> In x us /\ uid x <> k.
Proof.
  unfold dict_del. rewrite filter_In. intros [Hin Hb].
  split; [exact Hin|]. apply negb_true_iff, Nat.eqb_neq in Hb. exact Hb.
Qed.

Lemma in_dict_set (us : list User) (v x : User) :
  In x (dict_set us v) -> In x us \/ x = v.
Proof.
  unfold dict_set. destruct (dict_mem us (uid v)).
  - rewrite in_map_iff. intros (y & Hx & Hy).
    destruct (Nat.eqb (uid y) (uid v)); [right|left; subst]; auto.
  - rewrite in_app_iff. simpl. intros [H|[H|[]]]; auto.
Qed.

Lemma nodup_map_filter (g : User -> bool) (us : list User) :
  NoDup (map uid us) -> NoDup (map uid (filter g us)).
Proof.
  induction us as [|u us IH]; simpl; intro H; [constructor|].
  inversion H as [|? ? Hnin Hnd]; subst.
  destruct (g u); simpl; [|auto].
  constructor; [|auto].
  intro Hin. apply Hnin. rewrite in_map_iff in *.
  destruct Hin as (y & Hy & Hin). rewrite filter_In in Hin.
  exists y. tauto.
Qed.

Lemma nodup_dict_set (us : list User) (v : User) :
  NoDup (map uid us) -> NoDup (map uid (dict_set us v)).
Proof.
  intro H. unfold dict_set.
  destruct (dict_mem us (uid v)) eqn:E.
  - rewrite map_map.
    replace (map (fun u => uid (if Nat.eqb (uid u) (uid v) then v else u)) us)
      with (map uid us); [exact H|].
    apply map_ext. intro u.
    destruct (Nat.eqb (uid u) (uid v)) eqn:E2; [apply Nat.eqb_eq in E2|]; auto.
  - rewrite map_app. simpl.
    apply (Permutation.Permutation_NoDup (Permutation.Permutation_cons_append _ _)).
    constructor; [|exact H].
    rewrite in_map_iff. intros (u & Hu & Hin).
    unfold dict_mem in E. destruct (dict_get us (uid v)) eqn:G; [discriminate|].
    exact (dict_get_none us (uid v) G u Hin Hu).
Qed.

(** At most one element of a duplicate-free list of ids equals [p]. *)
Lemma nodup_all_eq_length (l : list nat) (p : nat) :
  NoDup l -> (forall x, In x l -> x = p) -> length l <= 1.
Proof.
  intros Hnd Hall. destruct l as [|a [|b l]]; simpl; try lia.
  exfalso. inversion Hnd as [|? ? Hnin _]; subst.
  apply Hnin. left. rewrite (Hall a), (Hall b); simpl; auto.
Qed.

End ServerFacts.

(* ------------------------------------------------------------------ *)
(** ** The presenter flag invariant *)

Module PresenterInvariant.
Import Capture Server ServerFacts.

(** Dict keys are distinct, and every user whose flag is set is the one
    [presenter_id] names. *)
Definition inv (s : State) : Prop :=
  NoDup (map uid (users s)) /\
  forall u, In u (users s) -> is_presenter u = true -> presenter_id s = Some (uid u).

Lemma inv_fields (s s' : State) :
  inv s -> users s' = users s -> presenter_id s' = presenter_id s -> inv s'.
Proof. unfold inv. intros H E1 E2. rewrite E1, E2. exact H. Qed.

Lemma inv_init (c : Capture) : inv (init_state c).
Proof. split; simpl; [constructor | tauto]. Qed.

Lemma inv_join (f : nat -> bool) (s : State) (k : nat) (now : Q) :
  inv s -> inv (join f s k now).
Proof.
  intros [Hnd Hp]. unfold join.
  eapply inv_fields; [| apply broadcast_except_fields | apply broadcast_except_fields].
  eapply inv_fields; [| apply send_to_user_fields | apply send_to_user_fields].
  assert (Hnd1 : NoDup (map uid (dict_set (users s) (mkUser k now false))))
    by (apply nodup_dict_set; exact Hnd).
  assert (Hp1 : forall u, In u (dict_set (users s) (mkUser k now false)) ->
            is_presenter u = true -> presenter_id s = Some (uid u)).
  { intros u Hin Hf. destruct (in_dict_set _ _ _ Hin) as [H|H]; [auto|subst; discriminate]. }
  simpl. destruct (presenter_id s) as [p|] eqn:Ep.
  - split; simpl; [exact Hnd1|]. intros u Hin Hf.
    rewrite Ep. exact (Hp1 u Hin Hf).
  - split; simpl; [rewrite map_uid_set_flag; exact Hnd1|].
    intros u Hin Hf.
    destruct (in_set_flag _ _ _ _ Hin) as (y & Hy & [[Hk Hu]|[Hk Hu]]); subst u.
    + simpl. rewrite Hk. reflexivity.
    + specialize (Hp1 y Hy Hf). discriminate.
Qed.

Lemma inv_request_presenter (f : nat -> bool) (s : State) (k : nat) :
  inv s -> inv (request_presenter f s k).
Proof.
  intros [Hnd Hp]. unfold request_presenter.
  destruct (negb (dict_mem (users s) k)); [split; auto|].
  eapply inv_fields; [| apply broadcast_fields | apply broadcast_fields].
  (* after clearing the old flag, no set flag remains outside [k] *)
  set (us1 := match presenter_id s with
              | Some p => match dict_get (users s) p with
                          | Some _ => set_flag (users s) p false
                          | None => users s
                          end
              | None => users s
              end).
  assert (Hnd1 : NoDup (map uid us1)).
  { unfold us1. destruct (presenter_id s); [destruct (dict_get (users s) n)|];
      try rewrite map_uid_set_flag; exact Hnd. }
  assert (Hp1 : forall u, In u us1 -> is_presenter u = true -> False).
  { unfold us1. intros u Hin Hf. destruct (presenter_id s) as [p|] eqn:Ep.
    - destruct (dict_get (users s) p) eqn:G.
      + destruct (in_set_flag _ _ _ _ Hin) as (y & Hy & [[Hk Hu]|[Hk Hu]]); subst u.
        * discriminate.
        * specialize (Hp y Hy Hf). try rewrite Ep in Hp. injection Hp as Hp. auto.
      + specialize (Hp u Hin Hf). try rewrite Ep in Hp. injection Hp as Hp.
        exact (dict_get_none _ _ G u Hin (eq_sym Hp)).
    - specialize (Hp u Hin Hf). discriminate. }
  split; simpl; [rewrite map_uid_set_flag; exact Hnd1|].
  intros u Hin Hf.
  destruct (in_set_flag _ _ _ _ Hin) as (y & Hy & [[Hk Hu]|[Hk Hu]]); subst u.
  - simpl. rewrite Hk. reflexivity.
  - exfalso. exact (Hp1 y Hy Hf).
Qed.

Lemma inv_user_disconnected (f : nat -> bool) (s : State) (k : nat) :
  inv s -> inv (user_disconnected f s k).
Proof.
  intros [Hnd Hp]. unfold user_disconnected.
  destruct (negb (dict_mem (users s) k)); [split; auto|].
  eapply inv_fields; [| apply broadcast_fields | apply broadcast_fields].
  assert (Hnd1 : NoDup (map uid (dict_del (users s) k)))
    by (apply nodup_map_filter; exact Hnd).
  simpl. destruct (presenter_id s) as [p|] eqn:Ep;
    [destruct (Nat.eqb k p) eqn:Ekp|].
  - apply Nat.eqb_eq in Ekp. subst p.
    simpl. destruct (dict_del (users s) k) as [|u0 rest] eqn:Ed.
    + split; simpl; [constructor|tauto].
    + rewrite <- Ed in *. split; simpl; [rewrite map_uid_set_flag; exact Hnd1|].
      intros u Hin Hf.
      destruct (in_set_flag _ _ _ _ Hin) as (y & Hy & [[Hk Hu]|[Hk Hu]]); subst u.
      * simpl. rewrite Hk. reflexivity.
      * exfalso. destruct (in_dict_del _ _ _ Hy) as [Hy' Hyk].
        specialize (Hp y Hy' Hf). injection Hp as Hp. auto.
  - split; simpl; [exact Hnd1|].
    intros u Hin Hf. apply in_dict_del in Hin. rewrite Ep. apply Hp; tauto.
  - split; simpl; [exact Hnd1|].
    intros u Hin Hf. apply in_dict_del in Hin. rewrite Ep. apply Hp; tauto.
Qed.

Lemma inv_run_ops (f : nat -> bool) (ops : list RegOp) (s : State) :
  inv s -> inv (run_ops f s ops).
Proof.
  unfold run_ops. revert s.
  induction ops as [|op ops IH]; intros s H; simpl; [exact H|].
  apply IH. destruct op; simpl.
  - apply inv_join; exact H.
  - apply inv_user_disconnected; exact H.
  - apply inv_request_presenter; exact H.
Qed.


End PresenterInvariant.

Module FanoutFacts.
Import Capture Server ServerFacts.

Lemma send_all_outbox (f : nat -> bool) (ks : list nat) (e : Event) (s : State) :
  outbox (send_all f s ks e) =
    outbox s ++ map (fun k => (k, e)) (filter (fun k => negb (f k)) ks) /\
  errlog (send_all f s ks e) = errlog s ++ filter f ks.
Proof.
  unfold send_all. revert s.
  induction ks as [|k ks IH]; intro s; simpl; [rewrite !app_nil_r; auto|].
  destruct (IH (send_one f s k e)) as [H1 H2]. rewrite H1, H2.
  unfold send_one. destruct (f k); simpl; rewrite <- !app_assoc; auto.
Qed.

Lemma opt_eqb_Some_false (s : State) (k : nat) :
  presenter_id s <> Some k -> opt_eqb (Some k) (presenter_id s) = false.
Proof.
  intro H. destruct (presenter_id s) as [p|]; simpl; [|reflexivity].
  apply Nat.eqb_neq. intro E. subst. auto.
Qed.

Lemma opt_eqb_Some_false' (s : State) (k : nat) :
  presenter_id s <> Some k -> opt_eqb (presenter_id s) (Some k) = false.
Proof.
  intro H. destruct (presenter_id s) as [p|]; simpl; [|reflexivity].
  apply Nat.eqb_neq. intro E. subst. auto.
Qed.

Lemma dict_mem_in (us : list User) (k : nat) :
  dict_mem us k = true -> In k (map uid us).
Proof.
  unfold dict_mem. destruct (dict_get us k) as [u|] eqn:G; [|discriminate].
  intros _. destruct (dict_get_some _ _ _ G) as [Hin <-]. apply in_map. exact Hin.
Qed.

Lemma client_fold_chat (r u : nat) (m : string) (t : Q) (l : list nat) (p : list ChatLine) :
  fold_left (client_recv r) (map (fun x => (x, ChatMessage u m t)) l) p =
  p ++ repeat (UserLine u m) (count_occ Nat.eq_dec l r).
Proof.
  revert p. induction l as [|x l IH]; intro p; simpl; [rewrite app_nil_r; reflexivity|].
  rewrite IH. unfold client_recv. simpl.
  destruct (Nat.eq_dec x r) as [E|E].
  - subst. rewrite Nat.eqb_refl. simpl. rewrite <- app_assoc. reflexivity.
  - apply Nat.eqb_neq in E. rewrite E. reflexivity.
Qed.

End FanoutFacts.

(* ------------------------------------------------------------------ *)
(** ** Session registry and control-plane claims *)

Module RegistryClaims.
Import Capture Server Scenarios ServerFacts PresenterInvariant FanoutFacts.

Example s_abc_presenter : presenter_id s_abc = Some 0.
Proof. reflexivity. Qed.

(** C2 (as stated, refuted): user 1 (B) is not the presenter of
    [s_abc]; its [settings_update] gets no [error] message. *)
Lemma settings_update_no_error_event :
  ~ exists m, In (1, Error m)
      (outbox (handle_message no_fail s_abc 1
                 (SettingsUpdate (mkSettingsArg (Some 5%Z) None None None)) 0)).
Proof.
  intros [m Hin]. vm_compute in Hin.
  repeat (destruct Hin as [Hin|Hin]; [discriminate|]). exact Hin.
Qed.

(** C2 (amended): a [settings_update] from a user that is not the
    presenter is ignored: the whole server state, capture settings and
    sent messages included, is unchanged, and no message is sent. *)
Theorem settings_update_nonpresenter_ignored (f : nat -> bool) (s : State) (k : nat)
    (st : SettingsArg) (now : Q) :
  presenter_id s <> Some k ->
  handle_message f s k (SettingsUpdate st) now = s.
Proof.
  intro H. simpl. unfold handle_settings_update.
  rewrite (opt_eqb_Some_false s k H). reflexivity.
Qed.

Lemma settings_update_nonpresenter_ignored_witness :
  presenter_id s_abc <> Some 1 /\
  handle_message no_fail s_abc 1
    (SettingsUpdate (mkSettingsArg (Some 5%Z) None None None)) 0 = s_abc.
Proof.
  assert (H : presenter_id s_abc <> Some 1) by (vm_compute; congruence).
  split; [exact H|].
  exact (settings_update_nonpresenter_ignored no_fail s_abc 1 _ 0 H).
Defined.

(** C6 (as stated, refuted): B's [stop_presenting] in [s_abc] gets no
    [error] message. *)
Lemma stop_presenting_no_error_event :
  ~ exists m, In (1, Error m) (outbox (handle_message no_fail s_abc 1 StopPresenting 0)).
Proof.
  intros [m Hin]. vm_compute in Hin.
  repeat (destruct Hin as [Hin|Hin]; [discriminate|]). exact Hin.
Qed.

(** C6 (amended): from a user that is not the presenter,
    [stop_presenting] changes nothing and sends nothing, while
    [start_presenting] only sends the [error] message to that user (when
    connected); users, presenter and capture are untouched. *)
Theorem start_stop_nonpresenter (f : nat -> bool) (s : State) (k : nat) (now : Q) :
  presenter_id s <> Some k ->
  handle_message f s k StopPresenting now = s /\
  handle_message f s k StartPresenting now =
    (if dict_mem (users s) k then send_one f s k (Error only_presenter_msg) else s).
Proof.
  intro H. simpl. unfold stop_presenting, start_presenting, send_to_user.
  rewrite (opt_eqb_Some_false s k H), (opt_eqb_Some_false' s k H).
  split; [reflexivity|]. destruct (dict_mem (users s) k); reflexivity.
Qed.

Lemma start_stop_nonpresenter_witness :
  presenter_id s_abc <> Some 2 /\
  handle_message no_fail s_abc 2 StopPresenting 0 = s_abc /\
  handle_message no_fail s_abc 2 StartPresenting 0 =
    send_one no_fail s_abc 2 (Error only_presenter_msg).
Proof.
  assert (H : presenter_id s_abc <> Some 2) by (vm_compute; congruence).
  destruct (start_stop_nonpresenter no_fail s_abc 2 0 H) as [H1 H2].
  split; [exact H|]. split; [exact H1|]. rewrite H2. reflexivity.
Defined.

(** C7 (as stated, refuted): when the send to user 1 raises during a
    broadcast in [s_abc], user 1 is still registered afterwards. *)
Lemma broadcast_failure_keeps_user :
  In 1 (map uid (users (broadcast fail_1 s_abc (PresenterChanged 0)))) /\
  errlog (broadcast fail_1 s_abc (PresenterChanged 0)) = [1].
Proof. split; vm_compute; auto. Qed.

(** C7 (amended): [_broadcast] sends to every registered user in order;
    a send that raises is logged and the loop goes on with the others;
    users, presenter and capture are left as they were, so the failing
    user stays registered. *)
Theorem broadcast_isolates_failures (f : nat -> bool) (s : State) (e : Event) :
  users (broadcast f s e) = users s /\
  presenter_id (broadcast f s e) = presenter_id s /\
  capture (broadcast f s e) = capture s /\
  outbox (broadcast f s e) =
    outbox s ++ map (fun k => (k, e)) (filter (fun k => negb (f k)) (map uid (users s))) /\
  errlog (broadcast f s e) = errlog s ++ filter f (map uid (users s)).
Proof.
  destruct (broadcast_fields f s e) as (H1 & H2 & H3).
  destruct (send_all_outbox f (map uid (users s)) e s) as [H4 H5].
  unfold broadcast. auto.
Qed.

(** C3 (as stated, refuted): after 51 chat messages from A, A's chat
    panel holds 51 lines, not 50; the server state keeps no chat log. *)
Lemma chat_51_lines :
  length (client_panel 0 (outbox (chats s_a 0 51))) = 51 /\
  users (chats s_a 0 51) = users s_a.
Proof. split; vm_compute; reflexivity. Qed.

(** C3 (amended): a non-blank chat message from a connected user leaves
    users, presenter and capture unchanged (nothing is stored) and adds
    exactly one line to the chat panel of every connected user whose
    send succeeds; no line is ever removed. *)
Theorem chat_appends_one_line (f : nat -> bool) (s : State) (k r : nat)
    (msg : string) (now : Q) :
  inv s -> dict_mem (users s) k = true -> is_empty_string (strip msg) = false ->
  dict_mem (users s) r = true -> f r = false ->
  users (handle_message f s k (Chat msg) now) = users s /\
  presenter_id (handle_message f s k (Chat msg) now) = presenter_id s /\
  capture (handle_message f s k (Chat msg) now) = capture s /\
  client_panel r (outbox (handle_message f s k (Chat msg) now)) =
    client_panel r (outbox s) ++ [UserLine k (strip msg)].
Proof.
  intros [Hnd _] Hk Hm Hr Hf. simpl. unfold handle_chat. rewrite Hk, Hm. simpl.
  destruct (broadcast_fields f s (ChatMessage k (strip msg) now)) as (H1 & H2 & H3).
  split; [exact H1|]. split; [exact H2|]. split; [exact H3|].
  unfold broadcast. rewrite (proj1 (send_all_outbox _ _ _ _)).
  unfold client_panel. rewrite fold_left_app. fold (client_panel r (outbox s)).
  rewrite client_fold_chat.
  set (l := filter (fun x => negb (f x)) (map uid (users s))).
  assert (Hl : NoDup l) by (apply NoDup_filter; exact Hnd).
  assert (Hin : In r l).
  { unfold l. apply filter_In. split; [apply dict_mem_in; exact Hr|rewrite Hf; reflexivity]. }
  rewrite (proj1 (NoDup_count_occ' Nat.eq_dec l) Hl r Hin). reflexivity.
Qed.

Lemma chat_appends_one_line_witness :
  inv s_abc /\
  client_panel 2 (outbox (handle_message no_fail s_abc 0 (Chat " hello ") 5)) =
    client_panel 2 (outbox s_abc) ++ [UserLine 0 "hello"].
Proof.
  assert (Hi : inv s_abc) by (apply inv_run_ops, inv_init).
  split; [exact Hi|].
  destruct (chat_appends_one_line no_fail s_abc 0 2 " hello " 5 Hi
              eq_refl eq_refl eq_refl eq_refl) as (_ & _ & _ & H).
  exact H.
Defined.

End RegistryClaims.

(* ------------------------------------------------------------------ *)
(** ** Presenter hand-off on disconnect *)

Module HandoffClaims.
Import Capture Server Scenarios ServerFacts PresenterInvariant FanoutFacts.






End HandoffClaims.

(* ------------------------------------------------------------------ *)
(** ** Capture loop claims *)

Module CaptureClaims.
Import Capture Scenarios.
Local Open Scope Q_scope.
Local Arguments list_Z_eqb : simpl never.











(** C8: on [fps_trace] (20 frames per second for 9 s, then 10 frames in
    the last second) the unified [_update_fps] reports 19, the lifetime
    average, while 10 frames fell in the last 1-second window; the
    [screen_capture.py] variant reports 10. *)
Theorem unified_fps_lifetime_average :
  UnifiedLoop.actual_fps (UnifiedLoop.count_frames u0 fps_trace) == 19 /\
  ThreadedLoop.t_actual_fps
    (ThreadedLoop.count_frames (ThreadedLoop.start_state 0 0) fps_trace) == 10 /\
  List.length (filter (fun t => negb (Qle_bool t 9)) fps_trace) = 10%nat.
Proof. vm_compute. split; [reflexivity|]. split; reflexivity. Qed.



End CaptureClaims.

(* ------------------------------------------------------------------ *)
(** ** Frame pacing of the [screen_capture.py] loop *)

Module PacingClaims.
Import ThreadedLoop.
Local Open Scope Q_scope.

Definition K (n : nat) : Q := inject_Z (Z.of_nat n).

Lemma K_succ (n : nat) (I : Q) : K (S n) * I == K n * I + I.
Proof. unfold K. rewrite Nat2Z.inj_succ, <- Z.add_1_r, inject_Z_plus. ring. Qed.

Lemma K_0 (I : Q) : K 0 * I == 0.
Proof. unfold K. simpl. ring. Qed.

(** The schedule invariant: the next tick starts at or after
    [next_frame_time]; a frame with [m] frames after it lies at least
    [m] intervals before [next_frame_time]; any two frames [i < j] lie at
    least [j - i - 1] intervals apart. *)
Definition sched_inv (I : Q) (st : TState) : Prop :=
  next_frame_time st <= clock st /\
  (forall i, (i < length (frame_times st))%nat ->
     nth i (frame_times st) 0 + K (length (frame_times st) - 1 - i) * I
       <= next_frame_time st) /\
  (forall i j, (i < j < length (frame_times st))%nat ->
     nth i (frame_times st) 0 + K (j - i - 1) * I <= nth j (frame_times st) 0).

Lemma sched_inv_start (I t0 last : Q) : sched_inv I (start_state t0 last).
Proof.
  split; [simpl; apply Qle_refl|]. split; simpl; intros; lia.
Qed.

Lemma update_fps_sched (st : TState) (t : Q) :
  frame_times (update_fps st t) = frame_times st.
Proof. unfold update_fps. destruct (Qle_bool _ _); reflexivity. Qed.

Lemma sched_inv_tick (I : Q) (st : TState) (ti : TickIn) :
  0 <= I -> tick_ok ti -> sched_inv I st -> sched_inv I (tick I st ti).
Proof.
  intros HI (Hw & Hg1 & Hg2 & Hov) (Ha & Hb & Hc).
  unfold tick. destruct (ti_shot ti) as [fr|].
  2:{ split; [simpl; lra|]. split; simpl; [exact Hb|exact Hc]. }
  set (fs := frame_times st). set (N := next_frame_time st). set (w := clock st).
  fold fs N w in Ha, Hb, Hc.
  match goal with |- context [update_fps ?x ?y] =>
    pose proof (update_fps_sched x y) as Hu; set (st1 := update_fps x y) in * end.
  simpl in Hu.
  (* the new schedule reference [N'] and the next start [C'] *)
  assert (Hgen : forall N' C', N + I <= N' -> w <= N' -> N' <= C' ->
            sched_inv I (mkT (t_running st1) (t_frame st1) (t_count st1)
                           (t_last_fps_time st1) (t_actual_fps st1) N' C' (frame_times st1))).
  { intros N' C' H1 H2 H3. rewrite Hu.
    split; [simpl; exact H3|]. simpl. rewrite length_app. simpl.
    assert (HKI : forall n, 0 <= K n * I).
    { intro n. apply Qmult_le_0_compat; [|exact HI]. unfold K, Qle; simpl; lia. }
    split.
    - intros i Hi. destruct (Nat.eq_dec i (length fs)) as [->|Hne].
      + rewrite nth_middle. replace (length fs + 1 - 1 - length fs)%nat with 0%nat by lia.
        pose proof (K_0 I). lra.
      + assert (Hlt : (i < length fs)%nat) by lia.
        rewrite app_nth1 by exact Hlt.
        replace (length fs + 1 - 1 - i)%nat with (S (length fs - 1 - i)) by lia.
        pose proof (K_succ (length fs - 1 - i) I). specialize (Hb i Hlt). lra.
    - intros i j Hij. destruct (Nat.eq_dec j (length fs)) as [->|Hne].
      + rewrite nth_middle. rewrite app_nth1 by lia.
        specialize (Hb i ltac:(lia)).
        replace (length fs - i - 1)%nat with (length fs - 1 - i)%nat by lia. lra.
      + rewrite !app_nth1 by lia. apply Hc. lia. }
  destruct (Qlt_le_dec 0 (N + I - (w + ti_work ti + ti_gap1 ti))) as [Hs|Hs].
  - apply Hgen; lra.
  - apply Hgen; lra.
Qed.

Lemma sched_inv_run (I : Q) (evs : list TEvent) (st : TState) :
  0 <= I -> Forall event_ok evs -> sched_inv I st -> sched_inv I (run_loop I st evs).
Proof.
  intros HI. revert st. induction evs as [|e evs IH]; intros st Hok H; simpl; [exact H|].
  inversion Hok as [|? ? He Hrest]; subst.
  destruct e as [ti|].
  - destruct (t_running st); apply IH; auto. apply sched_inv_tick; auto.
  - apply IH; [exact Hrest|]. destruct H as (Ha & Hb & Hc). split; [exact Ha|]. split; auto.
Qed.

(** C9 (as stated, refuted): a pass whose capture raises does not move
    the schedule by [1/fps] (here [1/10]) and does not sleep. *)
Lemma failed_tick_keeps_schedule :
  ~ (next_frame_time (tick (1 # 10) (start_state 0 0) (mkTickIn None (1 # 100) 0 0 0))
       == next_frame_time (start_state 0 0) + (1 # 10)) /\
  clock (tick (1 # 10) (start_state 0 0) (mkTickIn None (1 # 100) 0 0 0)) == 1 # 100.
Proof. vm_compute. split; [discriminate|reflexivity]. Qed.

(** C9 (amended): a pass that stores a frame moves [next_frame_time] by
    the interval, or, when the loop is already at or past that time,
    resets it to the current time and starts the next pass at once; a
    pass whose capture raises leaves the schedule alone and does not
    sleep.  Still no burst: for any two frames [i < j] of a run, frame
    [j] starts at least [(j - i - 1)] intervals after frame [i], so a
    window of [n] intervals holds at most [n + 1] frames. *)
Theorem frames_paced (I t0 last : Q) (evs : list TEvent) :
  0 <= I -> Forall event_ok evs ->
  (forall i j, (i < j < length (frame_times (run_loop I (start_state t0 last) evs)))%nat ->
     nth i (frame_times (run_loop I (start_state t0 last) evs)) 0
       + inject_Z (Z.of_nat (j - i - 1)) * I
     <= nth j (frame_times (run_loop I (start_state t0 last) evs)) 0) /\
  (forall st w g1 g2 ov,
     next_frame_time (tick I st (mkTickIn None w g1 g2 ov)) = next_frame_time st /\
     frame_times (tick I st (mkTickIn None w g1 g2 ov)) = frame_times st).
Proof.
  intros HI Hok. split.
  - destruct (sched_inv_run I evs (start_state t0 last) HI Hok (sched_inv_start I t0 last))
      as (_ & _ & Hc).
    exact Hc.
  - intros. split; reflexivity.
Qed.

(** Ten passes at [1/10] s intervals, the third one overloaded. *)
Definition pacing_events : list TEvent :=
  map (fun k => TTick (mkTickIn (Some k) (if Nat.eqb k 3 then 1 # 4 else 1 # 100) 0 0 0))
    (seq 0 10).

Lemma frames_paced_witness :
  (0 <= 1 # 10) /\ Forall event_ok pacing_events /\
  nth 0 (frame_times (run_loop (1 # 10) (start_state 0 0) pacing_events)) 0
    + inject_Z (Z.of_nat (9 - 0 - 1)) * (1 # 10)
  <= nth 9 (frame_times (run_loop (1 # 10) (start_state 0 0) pacing_events)) 0.
Proof.
  assert (HI : 0 <= 1 # 10) by (unfold Qle; simpl; lia).
  assert (Hok : Forall event_ok pacing_events).
  { unfold pacing_events. apply Forall_forall. intros e He.
    apply in_map_iff in He. destruct He as (k & <- & _).
    unfold event_ok, tick_ok; simpl.
    destruct (Nat.eqb k 3); repeat split; unfold Qle; simpl; lia. }
  split; [exact HI|]. split; [exact Hok|].
  assert (L : length (frame_times (run_loop (1 # 10) (start_state 0 0) pacing_events)) = 10%nat)
    by (vm_compute; reflexivity).
  apply (proj1 (frames_paced (1 # 10) 0 0 pacing_events HI Hok)).
  rewrite L. lia.
Defined.

End PacingClaims.

(* ------------------------------------------------------------------ *)
(** ** Registry behaviour beyond the claims *)

Module RegistryFacts.
Import Capture Server ServerFacts PresenterInvariant FanoutFacts.

(** [presenter_id] names a connected user, and is only [None] when no
    user is connected. *)
Definition present (s : State) : Prop :=
  (forall p, presenter_id s = Some p -> In p (map uid (users s))) /\
  (presenter_id s = None -> users s = []).

Lemma present_fields (s s' : State) :
  present s -> users s' = users s -> presenter_id s' = presenter_id s -> present s'.
Proof. unfold present. intros H E1 E2. rewrite E1, E2. exact H. Qed.

Lemma map_uid_dict_set (us : list User) (v : User) :
  map uid (dict_set us v) =
    if dict_mem us (uid v) then map uid us else map uid us ++ [uid v].
Proof.
  unfold dict_set. destruct (dict_mem us (uid v)) eqn:E.
  - rewrite map_map. apply map_ext. intro u.
    destruct (Nat.eqb (uid u) (uid v)) eqn:E2; [apply Nat.eqb_eq in E2|]; auto.
  - rewrite map_app. reflexivity.
Qed.

Lemma in_map_uid_dict_set (us : list User) (v : User) (p : nat) :
  In p (map uid us) \/ p = uid v -> In p (map uid (dict_set us v)).
Proof.
  rewrite map_uid_dict_set. destruct (dict_mem us (uid v)) eqn:E.
  - apply dict_mem_in in E. intros [H| ->]; auto.
  - rewrite in_app_iff. simpl. intros [H| ->]; auto.
Qed.

Lemma in_map_uid_dict_del (us : list User) (k p : nat) :
  In p (map uid (dict_del us k)) <-> In p (map uid us) /\ p <> k.
Proof.
  unfold dict_del. rewrite !in_map_iff. split.
  - intros (u & <- & Hin). rewrite filter_In in Hin. destruct Hin as [Hin Hb].
    apply negb_true_iff, Nat.eqb_neq in Hb. eauto.
  - intros ((u & <- & Hin) & Hk). exists u. split; [reflexivity|].
    rewrite filter_In. split; [exact Hin|]. apply negb_true_iff, Nat.eqb_neq. exact Hk.
Qed.

Lemma dict_mem_false (us : list User) (k : nat) :
  dict_mem us k = false -> ~ In k (map uid us).
Proof.
  unfold dict_mem. destruct (dict_get us k) eqn:G; [discriminate|].
  intros _ Hin. apply in_map_iff in Hin. destruct Hin as (u & Hu & Hin).
  exact (dict_get_none _ _ G u Hin Hu).
Qed.

Lemma dict_mem_true (us : list User) (k : nat) :
  In k (map uid us) -> dict_mem us k = true.
Proof.
  intro Hin. destruct (dict_mem us k) eqn:E; [reflexivity|].
  exfalso. exact (dict_mem_false _ _ E Hin).
Qed.

Lemma present_join (f : nat -> bool) (s : State) (k : nat) (now : Q) :
  present s -> present (join f s k now).
Proof.
  intros [Hp Hn]. unfold join.
  eapply present_fields; [| apply broadcast_except_fields | apply broadcast_except_fields].
  eapply present_fields; [| apply send_to_user_fields | apply send_to_user_fields].
  simpl. destruct (presenter_id s) as [p|] eqn:Ep; split; simpl.
  - intros p' E. rewrite Ep in E. injection E as E. subst p'.
    apply in_map_uid_dict_set. left. apply Hp. reflexivity.
  - intro E. rewrite Ep in E. discriminate.
  - intros p' E. injection E as E. subst p'. rewrite map_uid_set_flag.
    apply in_map_uid_dict_set. right. reflexivity.
  - discriminate.
Qed.

Lemma present_request (f : nat -> bool) (s : State) (k : nat) :
  present s -> present (request_presenter f s k).
Proof.
  intro H. unfold request_presenter.
  destruct (dict_mem (users s) k) eqn:Em; simpl; [|exact H].
  eapply present_fields; [| apply broadcast_fields | apply broadcast_fields].
  split; simpl; [|discriminate].
  intros p E. injection E as E. subst p. rewrite map_uid_set_flag.
  destruct (presenter_id s) as [q|]; [destruct (dict_get (users s) q)|];
    try rewrite map_uid_set_flag; apply dict_mem_in; exact Em.
Qed.

Lemma present_leave (f : nat -> bool) (s : State) (k : nat) :
  present s -> present (user_disconnected f s k).
Proof.
  intros [Hp Hn]. unfold user_disconnected.
  destruct (dict_mem (users s) k) eqn:Em; simpl; [|split; auto].
  eapply present_fields; [| apply broadcast_fields | apply broadcast_fields].
  simpl. destruct (presenter_id s) as [p|] eqn:Ep; [destruct (Nat.eqb k p) eqn:Ekp|].
  - simpl. destruct (dict_del (users s) k) as [|u0 rest] eqn:Ed; simpl.
    + split; [discriminate | reflexivity].
    + split; simpl; [|discriminate]. intros p' E. injection E as E. subst p'.
      rewrite Nat.eqb_refl. left. reflexivity.
  - simpl. apply Nat.eqb_neq in Ekp. split; simpl; [|intro E; rewrite ?Ep in E; discriminate].
    intros p' E. rewrite ?Ep in E. injection E as E. subst p'.
    apply in_map_uid_dict_del. split; [apply Hp; reflexivity|].
    intro E. apply Ekp. symmetry. exact E.
  - exfalso. specialize (Hn eq_refl). apply dict_mem_in in Em. rewrite Hn in Em. exact Em.
Qed.

Lemma present_run_ops (f : nat -> bool) (ops : list RegOp) (s : State) :
  present s -> present (run_ops f s ops).
Proof.
  unfold run_ops. revert s.
  induction ops as [|op ops IH]; intros s H; simpl; [exact H|].
  apply IH. destruct op; simpl.
  - apply present_join; exact H.
  - apply present_leave; exact H.
  - apply present_request; exact H.
Qed.

Lemma present_init (c : Capture) : present (init_state c).
Proof. split; simpl; [discriminate | reflexivity]. Qed.

Lemma filter_neq_all (l : list nat) (k : nat) :
  ~ In k l -> filter (fun x => negb (Nat.eqb x k)) l = l.
Proof.
  induction l as [|x l IH]; simpl; intro H; [reflexivity|].
  destruct (Nat.eqb x k) eqn:E.
  - apply Nat.eqb_eq in E. subst. exfalso. auto.
  - simpl. rewrite IH; auto.
Qed.


Lemma presenters_set_flag (us : list User) (k : nat) :
  In k (map uid us) -> In k (map uid (presenters (set_flag us k true))).
Proof.
  rewrite in_map_iff. intros (y & Hy & Hin).
  apply in_map_iff. exists (mkUser (uid y) (connected_at y) true).
  split; [exact Hy|]. unfold presenters. apply filter_In. split; [|reflexivity].
  unfold set_flag. apply in_map_iff. exists y. rewrite Hy, Nat.eqb_refl. auto.
Qed.

Lemma single_presenter (s : State) (k : nat) :
  inv s -> In k (map uid (presenters (users s))) -> map uid (presenters (users s)) = [k].
Proof.
  intros [Hnd Hp] Hk.
  assert (Hall : forall x, In x (map uid (presenters (users s))) -> x = k).
  { intros x Hx. apply in_map_iff in Hx. destruct Hx as (u & <- & Hin).
    apply in_map_iff in Hk. destruct Hk as (v & Hv & Hvin).
    unfold presenters in Hin, Hvin. apply filter_In in Hin, Hvin.
    pose proof (Hp u (proj1 Hin) (proj2 Hin)) as E1.
    pose proof (Hp v (proj1 Hvin) (proj2 Hvin)) as E2.
    rewrite E1 in E2. injection E2 as E2. congruence. }
  assert (Hnd' : NoDup (map uid (presenters (users s)))) by (apply nodup_map_filter; exact Hnd).
  pose proof (nodup_all_eq_length _ k Hnd' Hall) as Hlen.
  destruct (map uid (presenters (users s))) as [|a [|b l]] eqn:E; simpl in Hlen.
  - destruct Hk.
  - rewrite (Hall a); [reflexivity | left; reflexivity].
  - lia.
Qed.

(** X1: in every state the registry operations reach from [__init__],
    [presenter_id] names a connected user, and it is [None] exactly when
    no user is connected. *)
Theorem reachable_presenter_connected (f : nat -> bool) (c : Capture) (ops : list RegOp) :
  (forall p, presenter_id (run_ops f (init_state c) ops) = Some p ->
     In p (map uid (users (run_ops f (init_state c) ops)))) /\
  (presenter_id (run_ops f (init_state c) ops) = None <->
     users (run_ops f (init_state c) ops) = []).
Proof.
  destruct (present_run_ops f ops (init_state c) (present_init c)) as [Hp Hn].
  split; [exact Hp|]. split; [exact Hn|].
  intro E. destruct (presenter_id (run_ops f (init_state c) ops)) as [p|] eqn:Ep;
    [|reflexivity].
  exfalso. specialize (Hp p eq_refl). rewrite E in Hp. exact Hp.
Qed.

(** X2: in a reachable state, a connection with a fresh id is appended to
    [users]; it becomes presenter exactly when there is none; it alone
    gets [welcome] (telling it whether it presents), and every other
    connected user whose send succeeds gets [user_joined] with the new
    total. *)
Theorem join_fresh_user (f : nat -> bool) (c : Capture) (ops : list RegOp)
    (s : State) (k : nat) (now : Q)
    (Hs : s = run_ops f (init_state c) ops) (Hfresh : dict_mem (users s) k = false) :
  users (join f s k now) =
    users s ++ [mkUser k now (match presenter_id s with None => true | Some _ => false end)] /\
  presenter_id (join f s k now) =
    (match presenter_id s with None => Some k | Some p => Some p end) /\
  capture (join f s k now) = capture s /\
  outbox (join f s k now) =
    outbox s ++
    (if f k then []
     else [(k, Welcome k (match presenter_id s with None => true | Some _ => false end))]) ++
    map (fun r => (r, UserJoined k (S (List.length (users s)))))
      (filter (fun r => negb (f r)) (map uid (users s))).
Proof.
  assert (Hpr : present s) by (subst s; apply present_run_ops, present_init).
  clear Hs. destruct Hpr as [Hp Hn].
  pose proof (dict_mem_false _ _ Hfresh) as Hk.
  destruct s as [us pid cap ob el]; simpl in *.
  assert (Hset : dict_set us (mkUser k now false) = us ++ [mkUser k now false]).
  { unfold dict_set. simpl. rewrite Hfresh. reflexivity. }
  assert (Hmem : forall b, dict_mem (us ++ [mkUser k now b]) k = true).
  { intro b. apply dict_mem_true. rewrite map_app, in_app_iff. right. left. reflexivity. }
  assert (Hsa : forall st ks e,
    users (send_all f st ks e) = users st /\ presenter_id (send_all f st ks e) = presenter_id st /\
    capture (send_all f st ks e) = capture st /\
    outbox (send_all f st ks e) =
      outbox st ++ map (fun r => (r, e)) (filter (fun r => negb (f r)) ks)).
  { intros st ks e. destruct (send_all_fields f ks e st) as (H1 & H2 & H3).
    destruct (send_all_outbox f ks e st) as [H4 _]. auto. }
  unfold join, broadcast_except, send_to_user. simpl. rewrite Hset.
  destruct pid as [p|].
  - assert (Hpk : Nat.eqb p k = false).
    { apply Nat.eqb_neq. intro E. subst p. apply Hk, Hp. reflexivity. }
    simpl. rewrite Hpk, Hmem.
    match goal with |- context [send_all f ?st ?ks ?e] =>
      destruct (Hsa st ks e) as (H1 & H2 & H3 & H4) end.
    rewrite H1, H2, H3, H4.
    unfold send_one. destruct (f k); simpl;
      rewrite map_app, filter_app; simpl; rewrite Nat.eqb_refl; simpl;
      rewrite app_nil_r, filter_neq_all by exact Hk;
      rewrite ?length_app; simpl; rewrite ?Nat.add_1_r;
      repeat split; rewrite <- ?app_assoc; reflexivity.
  - specialize (Hn eq_refl). subst us. simpl. rewrite Nat.eqb_refl.
    unfold dict_mem, dict_get. simpl. rewrite Nat.eqb_refl.
    unfold send_one, send_all. destruct (f k); simpl; rewrite ?Nat.eqb_refl; simpl;
      repeat split; rewrite ?app_nil_r; reflexivity.
Qed.

Lemma sa_users (f : nat -> bool) (st : State) (ks : list nat) (e : Event) :
  users (send_all f st ks e) = users st.
Proof. apply send_all_fields. Qed.

Lemma sa_presenter (f : nat -> bool) (st : State) (ks : list nat) (e : Event) :
  presenter_id (send_all f st ks e) = presenter_id st.
Proof. apply send_all_fields. Qed.

Lemma sa_capture (f : nat -> bool) (st : State) (ks : list nat) (e : Event) :
  capture (send_all f st ks e) = capture st.
Proof. apply send_all_fields. Qed.

Lemma sa_outbox (f : nat -> bool) (st : State) (ks : list nat) (e : Event) :
  outbox (send_all f st ks e) =
    outbox st ++ map (fun r => (r, e)) (filter (fun r => negb (f r)) ks).
Proof. apply send_all_outbox. Qed.

Lemma sa_errlog (f : nat -> bool) (st : State) (ks : list nat) (e : Event) :
  errlog (send_all f st ks e) = errlog st ++ filter f ks.
Proof. apply send_all_outbox. Qed.

Ltac sa_rw := rewrite ?sa_users, ?sa_presenter, ?sa_capture, ?sa_outbox, ?sa_errlog.

(** X3: in a state where the presenter flag invariant [inv] holds
    (distinct ids, every flagged user is the one [presenter_id] names),
    a connected user's [request_presenter] makes it the presenter and
    the only user whose flag is set; no user is added or removed,
    capture is untouched, and every user whose send succeeds gets
    [presenter_changed]. *)
Theorem request_presenter_connected (f : nat -> bool) (s : State) (k : nat)
    (Hs : inv s) (Hk : dict_mem (users s) k = true) :
  presenter_id (request_presenter f s k) = Some k /\
  map uid (users (request_presenter f s k)) = map uid (users s) /\
  map uid (presenters (users (request_presenter f s k))) = [k] /\
  capture (request_presenter f s k) = capture s /\
  outbox (request_presenter f s k) =
    outbox s ++ map (fun r => (r, PresenterChanged k))
                  (filter (fun r => negb (f r)) (map uid (users s))).
Proof.
  assert (Hi : inv (request_presenter f s k))
    by (apply inv_request_presenter; exact Hs).
  revert Hi. unfold request_presenter. rewrite Hk. cbn [negb].
  match goal with |- context [set_flag ?us1 k true] =>
    assert (Hus1 : map uid us1 = map uid (users s))
      by (destruct (presenter_id s); [destruct (dict_get (users s) _)|];
          rewrite ?map_uid_set_flag; reflexivity);
    set (u1 := us1) in * end.
  clearbody u1. intro Hi. unfold broadcast in *. sa_rw.
  cbn [users presenter_id capture outbox] in *.
  rewrite !map_uid_set_flag, Hus1.
  split; [reflexivity|]. split; [reflexivity|]. split; [|auto].
  pose proof (single_presenter _ k Hi) as HS. rewrite sa_users in HS. cbn [users] in HS.
  apply HS. apply presenters_set_flag. rewrite Hus1. apply dict_mem_in. exact Hk.
Qed.

(** X4: when a connected user who is not the presenter disconnects, it
    alone is removed, presenter and capture are unchanged, and each
    remaining user whose send succeeds gets [user_left] with the new
    total and the unchanged presenter. *)
Theorem leave_non_presenter (f : nat -> bool) (s : State) (k : nat)
    (Hk : dict_mem (users s) k = true) (Hp : presenter_id s <> Some k) :
  users (user_disconnected f s k) = dict_del (users s) k /\
  presenter_id (user_disconnected f s k) = presenter_id s /\
  capture (user_disconnected f s k) = capture s /\
  outbox (user_disconnected f s k) =
    outbox s ++
    map (fun r => (r, UserLeft k (List.length (dict_del (users s) k)) (presenter_id s)))
      (filter (fun r => negb (f r)) (map uid (dict_del (users s) k))).
Proof.
  pose proof (opt_eqb_Some_false s k Hp) as Ho.
  destruct s as [us pid cap ob el]; cbn [users presenter_id capture outbox] in *.
  unfold user_disconnected, broadcast. cbn [users]. rewrite Hk. cbn [negb].
  cbn [with_users presenter_id]. rewrite Ho. sa_rw. cbn [users presenter_id capture outbox].
  repeat split; reflexivity.
Qed.

(** X5: in a reachable state, every message from an id that is not
    connected, and its disconnect, leave the server state unchanged. *)
Theorem unknown_id_ignored (f : nat -> bool) (c : Capture) (ops : list RegOp)
    (s : State) (k : nat) (cmd : Command) (now : Q)
    (Hs : s = run_ops f (init_state c) ops) (Hk : dict_mem (users s) k = false) :
  handle_message f s k cmd now = s /\ user_disconnected f s k = s.
Proof.
  assert (Hpr : present s) by (rewrite Hs; apply present_run_ops, present_init).
  assert (Hpk : presenter_id s <> Some k).
  { intro E. apply (dict_mem_false _ _ Hk). apply (proj1 Hpr). exact E. }
  pose proof (opt_eqb_Some_false s k Hpk) as Ho.
  pose proof (opt_eqb_Some_false' s k Hpk) as Ho'.
  split.
  - destruct cmd; cbn [handle_message];
      unfold start_presenting, stop_presenting, request_presenter, handle_chat,
        handle_settings_update;
      rewrite ?Hk, ?Ho, ?Ho'; reflexivity.
  - unfold user_disconnected. rewrite Hk. reflexivity.
Qed.

(** X6: [_broadcast_except] sends to every connected user but the
    excluded one, in [users] order, logging the failed sends; the
    excluded user receives nothing. *)
Theorem broadcast_except_skips (f : nat -> bool) (s : State) (k : nat) (e : Event) :
  outbox (broadcast_except f s k e) =
    outbox s ++ map (fun r => (r, e))
      (filter (fun r => negb (f r)) (filter (fun r => negb (Nat.eqb r k)) (map uid (users s)))) /\
  errlog (broadcast_except f s k e) =
    errlog s ++ filter f (filter (fun r => negb (Nat.eqb r k)) (map uid (users s))) /\
  (forall e', In (k, e') (outbox (broadcast_except f s k e)) -> In (k, e') (outbox s)).
Proof.
  unfold broadcast_except. sa_rw.
  split; [reflexivity|]. split; [reflexivity|].
  intros e' Hin. apply in_app_iff in Hin. destruct Hin as [Hin|Hin]; [exact Hin|].
  exfalso. apply in_map_iff in Hin. destruct Hin as (r & E & Hr).
  injection E as E _. subst r.
  apply filter_In in Hr. destruct Hr as [Hr _]. apply filter_In in Hr.
  destruct Hr as [_ Hr]. rewrite Nat.eqb_refl in Hr. discriminate.
Qed.

(** X7: in a reachable state with a single connected user, its
    disconnect leaves no user and no presenter, stops the capture, and
    sends nothing. *)
Theorem last_user_leaves (f : nat -> bool) (c : Capture) (ops : list RegOp)
    (s : State) (u : User)
    (Hs : s = run_ops f (init_state c) ops) (Hu : users s = [u]) :
  users (user_disconnected f s (uid u)) = [] /\
  presenter_id (user_disconnected f s (uid u)) = None /\
  running (capture (user_disconnected f s (uid u))) = false /\
  outbox (user_disconnected f s (uid u)) = outbox s.
Proof.
  assert (Hpr : present s) by (rewrite Hs; apply present_run_ops, present_init).
  destruct Hpr as [Hp Hn]. clear Hs.
  destruct s as [us pid cap ob el]; cbn [users presenter_id capture outbox] in *. subst us.
  destruct pid as [p|]; [|discriminate (Hn eq_refl)].
  specialize (Hp p eq_refl). destruct Hp as [Hp|[]]. subst p.
  unfold user_disconnected, broadcast, dict_mem, dict_get, dict_del.
  cbn; rewrite ?Nat.eqb_refl; cbn; rewrite ?Nat.eqb_refl; cbn.
  repeat split; reflexivity.
Qed.

Import Scenarios.

Lemma join_fresh_user_witness :
  s_a = run_ops no_fail (init_state cap0) [OpJoin 0 1] /\
  dict_mem (users s_a) 1 = false /\
  presenter_id (join no_fail s_a 1 2) = Some 0.
Proof.
  assert (H1 : s_a = run_ops no_fail (init_state cap0) [OpJoin 0 1]) by reflexivity.
  assert (H2 : dict_mem (users s_a) 1 = false) by (vm_compute; reflexivity).
  split; [exact H1|]. split; [exact H2|].
  destruct (join_fresh_user no_fail cap0 [OpJoin 0 1] s_a 1 2 H1 H2) as (_ & E & _).
  rewrite E. vm_compute. reflexivity.
Defined.

Lemma request_presenter_connected_witness :
  inv s_abc /\
  dict_mem (users s_abc) 1 = true /\
  map uid (presenters (users (request_presenter no_fail s_abc 1))) = [1].
Proof.
  assert (H1 : inv s_abc) by (apply inv_run_ops, inv_init).
  assert (H2 : dict_mem (users s_abc) 1 = true) by (vm_compute; reflexivity).
  split; [exact H1|]. split; [exact H2|].
  destruct (request_presenter_connected no_fail s_abc 1 H1 H2) as (_ & _ & E & _).
  exact E.
Defined.

Lemma leave_non_presenter_witness :
  dict_mem (users s_abc) 2 = true /\ presenter_id s_abc <> Some 2 /\
  presenter_id (user_disconnected no_fail s_abc 2) = Some 0.
Proof.
  assert (H1 : dict_mem (users s_abc) 2 = true) by (vm_compute; reflexivity).
  assert (H2 : presenter_id s_abc <> Some 2) by (vm_compute; congruence).
  split; [exact H1|]. split; [exact H2|].
  destruct (leave_non_presenter no_fail s_abc 2 H1 H2) as (_ & E & _).
  rewrite E. vm_compute. reflexivity.
Defined.

Lemma unknown_id_ignored_witness :
  s_abc = run_ops no_fail (init_state cap0) [OpJoin 0 1; OpJoin 1 2; OpJoin 2 3] /\
  dict_mem (users s_abc) 7 = false /\
  handle_message no_fail s_abc 7 StopPresenting 4 = s_abc.
Proof.
  assert (H1 : s_abc = run_ops no_fail (init_state cap0) [OpJoin 0 1; OpJoin 1 2; OpJoin 2 3])
    by reflexivity.
  assert (H2 : dict_mem (users s_abc) 7 = false) by (vm_compute; reflexivity).
  split; [exact H1|]. split; [exact H2|].
  exact (proj1 (unknown_id_ignored no_fail cap0 _ s_abc 7 StopPresenting 4 H1 H2)).
Defined.

Lemma last_user_leaves_witness :
  s_a = run_ops no_fail (init_state cap0) [OpJoin 0 1] /\
  users s_a = [mkUser 0 1 true] /\
  running (capture (user_disconnected no_fail s_a 0)) = false.
Proof.
  assert (H1 : s_a = run_ops no_fail (init_state cap0) [OpJoin 0 1]) by reflexivity.
  assert (H2 : users s_a = [mkUser 0 1 true]) by (vm_compute; reflexivity).
  split; [exact H1|]. split; [exact H2|].
  exact (proj1 (proj2 (proj2 (last_user_leaves no_fail cap0 _ s_a (mkUser 0 1 true) H1 H2)))).
Defined.

End RegistryFacts.

(* ------------------------------------------------------------------ *)
(** ** Interleaving at the await of [_user_disconnected] *)

Module InterleavingClaims.
Import Capture Server Scenarios ServerFacts PresenterInvariant FanoutFacts RegistryFacts.






















End InterleavingClaims.

(* ------------------------------------------------------------------ *)
(** ** Message dispatch beyond the claims *)

Module DispatchFacts.
Import Capture Server ServerFacts FanoutFacts RegistryFacts.

Lemma lstrip_suffix (l : list ascii) : exists p, l = p ++ lstrip_list l.
Proof.
  induction l as [|a l [p IH]]; simpl; [exists []; reflexivity|].
  destruct (is_space a); [exists (a :: p); simpl; rewrite <- IH; reflexivity|].
  exists []. reflexivity.
Qed.

Lemma lstrip_head (l : list ascii) :
  match lstrip_list l with [] => True | a :: _ => is_space a = false end.
Proof.
  induction l as [|a l IH]; simpl; [exact I|].
  destruct (is_space a) eqn:E; [exact IH | exact E].
Qed.

Lemma lstrip_prefix (x y z : list ascii) :
  x = y ++ z -> match x with [] => True | a :: _ => is_space a = false end ->
  lstrip_list y = y.
Proof.
  intros -> H. destruct y as [|a y]; simpl in *; [reflexivity|].
  rewrite H. reflexivity.
Qed.

Lemma lstrip_idem (l : list ascii) : lstrip_list (lstrip_list l) = lstrip_list l.
Proof.
  apply (lstrip_prefix (lstrip_list l) _ []); [rewrite app_nil_r; reflexivity|].
  apply lstrip_head.
Qed.

Lemma lstrip_all_space (l : list ascii) :
  Forall (fun a => is_space a = true) l -> lstrip_list l = [].
Proof.
  induction 1 as [|a l Ha _ IH]; simpl; [reflexivity|]. rewrite Ha. exact IH.
Qed.

Lemma strip_list (m : string) :
  list_ascii_of_string (strip m) =
  rev (lstrip_list (rev (lstrip_list (list_ascii_of_string m)))).
Proof. unfold strip. apply list_ascii_of_string_of_list_ascii. Qed.

(** X8: [str.strip] as the chat handler applies it is idempotent: the
    broadcast text is its own stripped form. *)
Theorem strip_idempotent (m : string) : strip (strip m) = strip m.
Proof.
  unfold strip at 1. rewrite strip_list.
  set (x := lstrip_list (list_ascii_of_string m)).
  set (y := rev (lstrip_list (rev x))).
  destruct (lstrip_suffix (rev x)) as [p Hp].
  assert (Hx : x = y ++ rev p).
  { unfold y. rewrite <- (rev_involutive x) at 1. rewrite Hp at 1. rewrite rev_app_distr. reflexivity. }
  assert (Hy : lstrip_list y = y).
  { apply (lstrip_prefix x y (rev p) Hx). unfold x. apply lstrip_head. }
  rewrite Hy. unfold y at 1. rewrite rev_involutive, lstrip_idem. reflexivity.
Qed.

(** X9: a chat message made only of whitespace ([str.isspace]
    characters: spaces, tabs, line breaks, [\x1c]-[\x1f], [\x85],
    [\xa0]) is dropped: nothing is broadcast and the state is unchanged. *)
Theorem blank_chat_ignored (f : nat -> bool) (s : State) (k : nat) (l : list ascii) (now : Q)
    (Hl : Forall (fun a => is_space a = true) l) :
  handle_message f s k (Chat (string_of_list_ascii l)) now = s.
Proof.
  assert (E : strip (string_of_list_ascii l) = EmptyString).
  { unfold strip. rewrite list_ascii_of_string_of_list_ascii, (lstrip_all_space l Hl).
    reflexivity. }
  cbn [handle_message]. unfold handle_chat. rewrite E. simpl. rewrite orb_true_r. reflexivity.
Qed.

(** X10: the presenter's [start_presenting] sets [running] without
    touching the other capture settings, the users or the presenter;
    every user whose send succeeds gets [presentation_started]; a second
    [start_presenting] leaves the capture as it is. *)
Theorem presenter_start (f : nat -> bool) (s s' : State) (k : nat) (now : Q)
    (Hk : dict_mem (users s) k = true) (Hp : presenter_id s = Some k)
    (Hs' : s' = handle_message f s k StartPresenting now) :
  running (capture s') = true /\
  target_fps (capture s') = target_fps (capture s) /\
  target_resolution (capture s') = target_resolution (capture s) /\
  quality (capture s') = quality (capture s) /\
  selected_monitor (capture s') = selected_monitor (capture s) /\
  users s' = users s /\ presenter_id s' = presenter_id s /\
  outbox s' = outbox s ++ map (fun r => (r, PresentationStarted k))
                            (filter (fun r => negb (f r)) (map uid (users s))) /\
  capture (handle_message f s' k StartPresenting now) = capture s'.
Proof.
  assert (Hstart : forall st, dict_mem (users st) k = true -> presenter_id st = Some k ->
    handle_message f st k StartPresenting now =
    broadcast f (with_capture st (start_capture (capture st))) (PresentationStarted k)).
  { intros st H1 H2. cbn [handle_message]. unfold start_presenting.
    rewrite H1, H2. cbn. rewrite Nat.eqb_refl. reflexivity. }
  assert (Hr : running (start_capture (capture s)) = true).
  { unfold start_capture. destruct (running (capture s)) eqn:E; [exact E | reflexivity]. }
  pose proof (Hstart s Hk Hp) as E. rewrite <- Hs' in E. clear Hs'.
  assert (Hu : users s' = users s) by (rewrite E; unfold broadcast; sa_rw; reflexivity).
  assert (Hpp : presenter_id s' = presenter_id s)
    by (rewrite E; unfold broadcast; sa_rw; reflexivity).
  assert (Hc : capture s' = start_capture (capture s))
    by (rewrite E; unfold broadcast; sa_rw; reflexivity).
  assert (Ho : outbox s' = outbox s ++ map (fun r => (r, PresentationStarted k))
                            (filter (fun r => negb (f r)) (map uid (users s))))
    by (rewrite E; unfold broadcast; sa_rw; reflexivity).
  assert (H1 : running (capture s') = true) by (rewrite Hc; exact Hr).
  assert (H2 : target_fps (capture s') = target_fps (capture s))
    by (rewrite Hc; unfold start_capture; destruct (running (capture s)); reflexivity).
  assert (H3 : target_resolution (capture s') = target_resolution (capture s))
    by (rewrite Hc; unfold start_capture; destruct (running (capture s)); reflexivity).
  assert (H4 : quality (capture s') = quality (capture s))
    by (rewrite Hc; unfold start_capture; destruct (running (capture s)); reflexivity).
  assert (H5 : selected_monitor (capture s') = selected_monitor (capture s))
    by (rewrite Hc; unfold start_capture; destruct (running (capture s)); reflexivity).
  assert (H6 : capture (handle_message f s' k StartPresenting now) = capture s').
  { rewrite (Hstart s') by (rewrite ?Hu, ?Hpp; assumption).
    unfold broadcast. sa_rw. cbn [with_capture capture].
    unfold start_capture. rewrite H1. reflexivity. }
  repeat (split; [assumption|]). assumption.
Qed.

Local Arguments list_Z_eqb : simpl never.

Lemma list_Z_eqb_eq (a b : list Z) : list_Z_eqb a b = true -> a = b.
Proof.
  revert b. induction a as [|x a IH]; intros [|y b]; simpl; try discriminate; auto.
  intro H. apply andb_true_iff in H as [H1 H2]. apply Z.eqb_eq in H1. subst.
  f_equal. apply IH. exact H2.
Qed.


(** Field by field, what [update_settings] leaves. *)
Lemma us_spec (c : Capture) (fps : option Z) (res : option (list Z)) (q m : option Z) :
  target_fps (update_settings c fps res q m) =
    match fps with Some f => if (f =? 0)%Z then target_fps c else f | None => target_fps c end /\
  target_resolution (update_settings c fps res q m) =
    match res with Some (x :: l) => x :: l | _ => target_resolution c end /\
  quality (update_settings c fps res q m) =
    match q with Some v => if (v =? 0)%Z then quality c else v | None => quality c end /\
  selected_monitor (update_settings c fps res q m) =
    match m with
    | Some i => if ((0 <=? i) && (i <? monitors_len c))%Z then i else selected_monitor c
    | None => selected_monitor c
    end /\
  running (update_settings c fps res q m) = running c /\
  monitors_len (update_settings c fps res q m) = monitors_len c.
Proof.
  destruct c as [run f0 r0 q0 m0 n0]. simpl.
  unfold update_settings, truthy_Z, truthy_list, select_monitor.
  destruct fps as [f|]; simpl;
  [destruct (f =? 0)%Z eqn:Ef; simpl; [|destruct (f =? f0)%Z eqn:Ef0; simpl]|];
  destruct res as [[|x l]|]; simpl;
  try (destruct (list_Z_eqb (x :: l) r0) eqn:Er; simpl);
  destruct q as [v|]; simpl;
  try (destruct (v =? 0)%Z eqn:Ev; simpl; [|destruct (v =? q0)%Z eqn:Eq0; simpl]);
  destruct m as [i|]; simpl;
  try (destruct ((0 <=? i) && (i <? n0))%Z eqn:Em; simpl);
  repeat match goal with
  | H : (_ =? _)%Z = true |- _ => apply Z.eqb_eq in H; subst
  | H : list_Z_eqb _ _ = true |- _ => apply list_Z_eqb_eq in H; subst
  end; repeat split; reflexivity.
Qed.




Import Scenarios.

Lemma blank_chat_ignored_witness :
  Forall (fun a => is_space a = true) [" "%char; "009"%char; "010"%char] /\
  handle_message no_fail s_abc 1 (Chat (string_of_list_ascii [" "%char; "009"%char; "010"%char])) 5
    = s_abc.
Proof.
  assert (H : Forall (fun a => is_space a = true) [" "%char; "009"%char; "010"%char])
    by (repeat constructor).
  split; [exact H|].
  exact (blank_chat_ignored no_fail s_abc 1 _ 5 H).
Defined.

Lemma presenter_start_witness :
  dict_mem (users s_abc) 0 = true /\ presenter_id s_abc = Some 0 /\
  running (capture (handle_message no_fail s_abc 0 StartPresenting 4)) = true.
Proof.
  assert (H1 : dict_mem (users s_abc) 0 = true) by (vm_compute; reflexivity).
  assert (H2 : presenter_id s_abc = Some 0) by (vm_compute; reflexivity).
  split; [exact H1|]. split; [exact H2|].
  exact (proj1 (presenter_start no_fail s_abc _ 0 4 H1 H2 eq_refl)).
Defined.



End DispatchFacts.

(* ------------------------------------------------------------------ *)
(** ** Monitor selection through the settings path *)

Module MonitorFacts.
Import Capture DispatchFacts.

(** X17: [update_settings] never changes [running] or the number of
    monitors, and keeps a selected monitor that is in range in range. *)
Theorem update_settings_monitor_in_range (c : Capture) (fps : option Z)
    (res : option (list Z)) (q m : option Z)
    (H : (0 <= selected_monitor c < monitors_len c)%Z) :
  running (update_settings c fps res q m) = running c /\
  monitors_len (update_settings c fps res q m) = monitors_len c /\
  (0 <= selected_monitor (update_settings c fps res q m) <
     monitors_len (update_settings c fps res q m))%Z.
Proof.
  destruct (us_spec c fps res q m) as (_ & _ & _ & A4 & A5 & A6).
  rewrite A4, A5, A6. split; [reflexivity|]. split; [reflexivity|].
  destruct m as [i|]; [|exact H].
  destruct ((0 <=? i) && (i <? monitors_len c))%Z eqn:E; [|exact H].
  apply andb_true_iff in E as [E1 E2]. apply Z.leb_le in E1. apply Z.ltb_lt in E2. lia.
Qed.

Import Scenarios.

Lemma update_settings_monitor_in_range_witness :
  (0 <= selected_monitor cap0 < monitors_len cap0)%Z /\
  (0 <= selected_monitor (update_settings cap0 None None None (Some 5%Z)) <
     monitors_len (update_settings cap0 None None None (Some 5%Z)))%Z.
Proof.
  assert (H : (0 <= selected_monitor cap0 < monitors_len cap0)%Z) by (vm_compute; split; congruence).
  split; [exact H|].
  exact (proj2 (proj2 (update_settings_monitor_in_range cap0 None None None (Some 5%Z) H))).
Defined.

End MonitorFacts.

(* ------------------------------------------------------------------ *)
(** ** Frame queue, JPEG quality, WebRTC fan-out and FPS readings *)

Module PipelineFacts.
Import FrameQueue.

Lemma offer_spec {A} (q : list A) (x : A) :
  length q <= maxsize -> offer q x = skipn (length q + 1 - maxsize) (q ++ [x]).
Proof.
  intro H. unfold offer, put_nowait.
  destruct (Nat.ltb (length q) maxsize) eqn:E.
  - apply Nat.ltb_lt in E. replace (length q + 1 - maxsize) with 0 by lia. reflexivity.
  - apply Nat.ltb_ge in E. destruct q as [|a r]; [unfold maxsize in E; simpl in E; lia|].
    cbn [get_nowait]. simpl length in *.
    replace (Nat.ltb (length r) maxsize) with true by (symmetry; apply Nat.ltb_lt; lia).
    replace (S (length r) + 1 - maxsize) with 1 by lia. reflexivity.
Qed.

Lemma offer_fold {A} (xs q : list A) :
  length q <= maxsize ->
  fold_left offer xs q = skipn (length q + length xs - maxsize) (q ++ xs).
Proof.
  revert q. induction xs as [|x xs IH]; intros q H; simpl.
  - rewrite app_nil_r. replace (length q + 0 - maxsize) with 0 by lia. reflexivity.
  - rewrite (offer_spec q x H).
    set (d := length q + 1 - maxsize).
    rewrite IH by (rewrite length_skipn, length_app; simpl; lia).
    assert (E : skipn d (q ++ [x]) ++ xs = skipn d ((q ++ [x]) ++ xs)).
    { rewrite (skipn_app d (q ++ [x]) xs), length_app. simpl length.
      replace (d - (length q + 1)) with 0 by lia. reflexivity. }
    rewrite E, skipn_skipn, <- app_assoc, length_skipn, length_app. simpl.
    f_equal. lia.
Qed.

(** X18: the frame queue, empty after [__init__], holds after any
    sequence of captured frames the last [maxsize] = 5 of them in capture
    order (older ones are dropped), so [get_frame_from_queue] returns the
    oldest of those, or [None] before the first frame. *)
Theorem frame_queue_last_five {A} (xs : list A) :
  fold_left offer xs [] = skipn (length xs - maxsize) xs /\
  length (fold_left offer xs []) <= maxsize /\
  fst (get_frame_from_queue (fold_left offer xs [])) = nth_error xs (length xs - maxsize).
Proof.
  assert (E : fold_left offer xs [] = skipn (length xs - maxsize) xs)
    by (rewrite (offer_fold xs []); simpl; [reflexivity | unfold maxsize; lia]).
  rewrite E. split; [reflexivity|]. split; [rewrite length_skipn; lia|].
  unfold get_frame_from_queue, get_nowait.
  remember (length xs - maxsize) as n eqn:En.
  assert (Hn : n <= length xs) by lia. clear E En.
  revert xs Hn. induction n as [|n IH]; intros xs Hn.
  - destruct xs; reflexivity.
  - destruct xs as [|a xs]; simpl in Hn; [lia|]. simpl. apply IH. lia.
Qed.

Local Open Scope Z_scope.

(** X19: the JPEG quality [ScreenCaptureSimple] derives from the bitrate
    is always within [50 .. 95], grows with the bitrate, and is
    [bitrate / 100] for bitrates in [5000 .. 9599]. *)
Theorem jpeg_quality_range (b b' : Z) :
  50 <= SimpleCapture.jpeg_quality b <= 95 /\
  (b <= b' -> SimpleCapture.jpeg_quality b <= SimpleCapture.jpeg_quality b') /\
  (5000 <= b < 9600 -> SimpleCapture.jpeg_quality b = b / 100).
Proof.
  unfold SimpleCapture.jpeg_quality.
  split; [lia|]. split.
  - intro H. pose proof (Z.quot_le_mono b b' 100 ltac:(lia) H). lia.
  - intro H. rewrite Z.quot_div_nonneg by lia.
    pose proof (Z.div_mod b 100 ltac:(lia)) as Hd.
    pose proof (Z.mod_pos_bound b 100 ltac:(lia)) as Hm. lia.
Qed.

Close Scope Z_scope.

Lemma filter_filter_and (g h : nat -> bool) (l : list nat) :
  filter g (filter h l) = filter (fun x => h x && g x) l.
Proof.
  induction l as [|x l IH]; simpl; [reflexivity|].
  destruct (h x); simpl; [destruct (g x); simpl|]; rewrite IH; reflexivity.
Qed.

Lemma broadcast_fold (fails : nat -> bool) (l set0 sent0 log0 : list nat) :
  fold_left (fun acc ws =>
      let '(set, sent, log) := acc in
      if fails ws then (filter (fun x => negb (Nat.eqb x ws)) set, sent, log ++ [ws])
      else (set, sent ++ [ws], log))
    l (set0, sent0, log0) =
  (filter (fun y => negb (existsb (fun z => fails z && Nat.eqb z y) l)) set0,
   sent0 ++ filter (fun w => negb (fails w)) l, log0 ++ filter fails l).
Proof.
  revert set0 sent0 log0.
  induction l as [|x l IH]; intros set0 sent0 log0; simpl.
  - rewrite !app_nil_r. f_equal. f_equal. induction set0 as [|y set0 IHs]; simpl; [reflexivity|].
    rewrite <- IHs. reflexivity.
  - destruct (fails x) eqn:Fx; rewrite IH; simpl.
    + rewrite filter_filter_and, <- !app_assoc. f_equal. f_equal.
      apply filter_ext. intro y. rewrite (Nat.eqb_sym y x).
      destruct (Nat.eqb x y); reflexivity.
    + rewrite <- !app_assoc. reflexivity.
Qed.

(** X20: [broadcast_message] delivers to every WebSocket whose send
    succeeds and discards from [self.websockets] exactly those whose
    send raised, logging each of them. *)
Theorem broadcast_message_drops_failed (fails : nat -> bool) (wss : list nat) :
  WebRTC.broadcast_message fails wss =
    (filter (fun w => negb (fails w)) wss, filter (fun w => negb (fails w)) wss,
     filter fails wss).
Proof.
  unfold WebRTC.broadcast_message. destruct wss as [|w0 ws0] eqn:Ew; [reflexivity|].
  rewrite <- Ew. rewrite broadcast_fold. simpl. f_equal. f_equal.
  apply filter_ext_in. intros y Hy.
  destruct (fails y) eqn:Fy; simpl.
  - replace (existsb (fun z => fails z && Nat.eqb z y) wss) with true; [reflexivity|].
    symmetry. apply existsb_exists. exists y. rewrite Fy, Nat.eqb_refl. auto.
  - destruct (existsb (fun z => fails z && Nat.eqb z y) wss) eqn:Ex; [|reflexivity].
    apply existsb_exists in Ex. destruct Ex as (z & _ & Hz).
    apply andb_true_iff in Hz as [Fz Ez]. apply Nat.eqb_eq in Ez. subst z. congruence.
Qed.

(** X21: successive [recv] calls of [ScreenStreamTrack] stamp frames
    [pts], [pts + 16666], [pts + 2 * 16666], ..., sending the latest
    capture or, when there is none yet, the black frame. *)
Theorem recv_timestamps (ls : list (option nat)) (p0 : Z) :
  map snd (WebRTC.recv_all ls p0) =
    map (fun i => (p0 + 16666 * Z.of_nat i)%Z) (seq 0 (length ls)) /\
  map fst (WebRTC.recv_all ls p0) =
    map (fun l => match l with Some f => WebRTC.Latest f | None => WebRTC.Black end) ls.
Proof.
  revert p0. induction ls as [|l ls IH]; intro p0;
    cbn [WebRTC.recv_all WebRTC.recv map seq length fst snd]; [auto|].
  destruct (IH (p0 + 16666)%Z) as [H1 H2]. rewrite H1, H2.
  split; [|reflexivity]. f_equal; [lia|].
  rewrite <- seq_shift, map_map. apply map_ext. intro i. lia.
Qed.

Local Open Scope Q_scope.

Lemma nat_Q_nonneg (n : nat) : 0 <= inject_Z (Z.of_nat n).
Proof. unfold Qle. simpl. lia. Qed.

Lemma div_nonneg (a b : Q) : 0 <= a -> 0 < b -> 0 <= a / b.
Proof. intros Ha Hb. apply Qle_shift_div_l; [exact Hb|]. lra. Qed.

(** X22: the FPS reading of the [unified_server.py] capture loop never
    becomes negative, whatever the clock readings. *)
Theorem unified_fps_nonneg (st : UnifiedLoop.UState) (evs : list UnifiedLoop.LoopEvent)
    (H : 0 <= UnifiedLoop.actual_fps st) :
  0 <= UnifiedLoop.actual_fps (UnifiedLoop.run_loop st evs).
Proof.
  assert (Hu : forall x t, 0 <= UnifiedLoop.actual_fps x ->
                 0 <= UnifiedLoop.actual_fps (UnifiedLoop.update_fps x t)).
  { intros x t Hx. unfold UnifiedLoop.update_fps.
    destruct (Qle_bool 1 (t - UnifiedLoop.last_fps_time x)); [|exact Hx]. simpl.
    destruct (Qlt_le_dec (UnifiedLoop.start_time x) t) as [Hlt|]; [|apply Qle_refl].
    apply div_nonneg; [apply nat_Q_nonneg | lra]. }
  revert st H. induction evs as [|[o t| |r] evs IH]; intros st H; simpl; [exact H| | |].
  - destruct (UnifiedLoop.u_running st && negb (UnifiedLoop.task_done st)); apply IH; [|exact H].
    destruct o; unfold UnifiedLoop.tick, UnifiedLoop.count_frame; [apply Hu; exact H|..];
      destruct (UnifiedLoop.generate_test_frame st); try (apply Hu; exact H); exact H.
  - apply IH. exact H.
  - apply IH. exact H.
Qed.

(** X23: the FPS reading of the [screen_capture.py] capture loop never
    becomes negative, whatever the clock readings. *)
Theorem threaded_fps_nonneg (interval : Q) (st : ThreadedLoop.TState)
    (evs : list ThreadedLoop.TEvent)
    (H : 0 <= ThreadedLoop.t_actual_fps st) :
  0 <= ThreadedLoop.t_actual_fps (ThreadedLoop.run_loop interval st evs).
Proof.
  assert (Hu : forall x t, 0 <= ThreadedLoop.t_actual_fps x ->
                 0 <= ThreadedLoop.t_actual_fps (ThreadedLoop.update_fps x t)).
  { intros x t Hx. unfold ThreadedLoop.update_fps.
    destruct (Qle_bool 1 (t - ThreadedLoop.t_last_fps_time x)) eqn:E; [|exact Hx].
    cbn [ThreadedLoop.t_actual_fps].
    apply Qle_bool_iff in E. apply div_nonneg; [apply nat_Q_nonneg | lra]. }
  assert (Ht : forall x ti, 0 <= ThreadedLoop.t_actual_fps x ->
                 0 <= ThreadedLoop.t_actual_fps (ThreadedLoop.tick interval x ti)).
  { intros x ti Hx. unfold ThreadedLoop.tick.
    destruct (ThreadedLoop.ti_shot ti); [|exact Hx].
    destruct (Qlt_le_dec 0 _); simpl; apply Hu; exact Hx. }
  revert st H. induction evs as [|[ti|] evs IH]; intros st H; simpl; [exact H| |].
  - destruct (ThreadedLoop.t_running st); apply IH; [apply Ht|]; exact H.
  - apply IH. exact H.
Qed.

Close Scope Q_scope.

Import Scenarios.

Lemma unified_fps_nonneg_witness :
  (0 <= UnifiedLoop.actual_fps u0)%Q /\
  (0 <= UnifiedLoop.actual_fps
          (UnifiedLoop.run_loop u0 (map (fun t => UnifiedLoop.Tick (UnifiedLoop.Captured 0) t)
                                      fps_trace)))%Q.
Proof.
  assert (H : (0 <= UnifiedLoop.actual_fps u0)%Q) by apply Qle_refl.
  split; [exact H|]. exact (unified_fps_nonneg u0 _ H).
Defined.

Lemma threaded_fps_nonneg_witness :
  (0 <= ThreadedLoop.t_actual_fps (ThreadedLoop.start_state 0 0))%Q /\
  (0 <= ThreadedLoop.t_actual_fps
          (ThreadedLoop.run_loop (1 # 60) (ThreadedLoop.start_state 0 0)
             [ThreadedLoop.TTick (ThreadedLoop.mkTickIn (Some 1%nat) (1 # 100) 0 0 0);
              ThreadedLoop.TStop]))%Q.
Proof.
  assert (H : (0 <= ThreadedLoop.t_actual_fps (ThreadedLoop.start_state 0 0))%Q)
    by apply Qle_refl.
  split; [exact H|]. exact (threaded_fps_nonneg (1 # 60) _ _ H).
Defined.

End PipelineFacts.
